(** * koishi-plugin-emojis: the codepoint encoder, the metadata store,
      the cache controller and the refresh orchestrator.

    A shallow embedding of [src/utils.ts] and of the two loaders of the
    repository ([src/index.ts] and its sibling variant), with the
    properties of the specification stated over it.

    JavaScript strings are sequences of UTF-16 code units: the strings the
    encoder and the lookup command work on are lists of [Z] (one code unit
    each).  File contents, header values, URLs and messages, which the code
    only moves around, are [string]s. *)

From Stdlib Require Import ZArith Lia Bool String DecimalString.
From stdpp Require Import base option list gmap strings.

Local Open Scope Z_scope.

(** ** JavaScript values shared by the modules *)

Abbreviation jsstring := (list Z).

(** What the code inspects of a thrown value: [error.response],
    [error.code] and [error.message]. *)
Record JsError := mkError {
  response : option (Z * string);   (* status, statusText *)
  code : option string;
  message : string
}.

(** [new Error(msg)]. *)
Definition Error (msg : string) : JsError :=
  {| response := None; code := None; message := msg |}.

Inductive Result (A : Type) : Type :=
| Ok (a : A)
| Throw (e : JsError).
Arguments Ok {A} a.
Arguments Throw {A} e.

Definition raises {A} (r : Result A) : bool :=
  match r with Ok _ => false | Throw _ => true end.

(** Number.prototype.toString(10) on an integer. *)
Definition toString10 (n : Z) : string :=
  NilZero.string_of_int (Z.to_int n).

(** ** UTF-16 *)

Definition is_high_surrogate (u : Z) : bool := (0xD800 <=? u) && (u <=? 0xDBFF).
Definition is_low_surrogate (u : Z) : bool := (0xDC00 <=? u) && (u <=? 0xDFFF).
Definition is_surrogate (u : Z) : bool := (0xD800 <=? u) && (u <=? 0xDFFF).

(** A Unicode scalar value: a code point that is not a surrogate. *)
Definition is_scalar (c : Z) : bool :=
  (0 <=? c) && (c <=? 0x10FFFF) && negb (is_surrogate c).

(** The code units of one code point (what String.fromCodePoint appends). *)
Definition utf16 (c : Z) : jsstring :=
  if c <=? 0xFFFF then [c]
  else [0xD800 + (c - 0x10000) / 0x400; 0xDC00 + (c - 0x10000) mod 0x400].

(** A string without lone surrogates, every unit within 16 bits. *)
Fixpoint well_formed (s : jsstring) : bool :=
  match s with
  | [] => true
  | u :: rest =>
      if is_high_surrogate u then
        match rest with
        | l :: rest' => is_low_surrogate l && well_formed rest'
        | [] => false
        end
      else (0 <=? u) && (u <=? 0xFFFF) && negb (is_low_surrogate u)
           && well_formed rest
  end.

(** String.prototype.codePointAt(i); [None] is [undefined]. *)
Definition codePointAt (s : jsstring) (i : nat) : option Z :=
  match s !! i with
  | None => None
  | Some first =>
      if is_high_surrogate first then
        match s !! S i with
        | Some second =>
            if is_low_surrogate second
            then Some ((first - 0xD800) * 0x400 + (second - 0xDC00) + 0x10000)
            else Some first
        | None => Some first
        end
      else Some first
  end.

(** The string iterator behind [Array.from(str)]: one element per code
    point, a lone surrogate being an element of its own. *)
Fixpoint Array_from (s : jsstring) : list jsstring :=
  match s with
  | [] => []
  | u :: rest =>
      if is_high_surrogate u then
        match rest with
        | l :: rest' =>
            if is_low_surrogate l then [u; l] :: Array_from rest'
            else [u] :: Array_from rest
        | [] => [[u]]
        end
      else [u] :: Array_from rest
  end.

(** WhiteSpace and LineTerminator, the characters [trim] and [parseInt]
    strip. *)
Definition is_js_space (u : Z) : bool :=
  (u =? 9) || (u =? 10) || (u =? 11) || (u =? 12) || (u =? 13) || (u =? 32)
  || (u =? 0xA0) || (u =? 0x1680) || ((0x2000 <=? u) && (u <=? 0x200A))
  || (u =? 0x2028) || (u =? 0x2029) || (u =? 0x202F) || (u =? 0x205F)
  || (u =? 0x3000) || (u =? 0xFEFF).

Fixpoint trimStart (s : jsstring) : jsstring :=
  match s with
  | u :: rest => if is_js_space u then trimStart rest else s
  | [] => []
  end.

Definition trim (s : jsstring) : jsstring :=
  reverse (trimStart (reverse (trimStart s))).

(** ** Numbers and text *)

Definition hex_digit (d : Z) : Z := if d <? 10 then 48 + d else 87 + d.

(** Digits of a non-negative integer in base 16, most significant first. *)
Fixpoint hex_digits (fuel : nat) (n : Z) : jsstring :=
  match fuel with
  | O => []
  | S fuel' =>
      if n <? 16 then [hex_digit n]
      else hex_digits fuel' (n / 16) ++ [hex_digit (n mod 16)]
  end.

(** Number.prototype.toString(16) on an integer. *)
Definition toString16 (n : Z) : jsstring :=
  if n <? 0 then 45 :: hex_digits (S (Z.to_nat (Z.log2 (- n)))) (- n)
  else hex_digits (S (Z.to_nat (Z.log2 n))) n.

(** Array.prototype.join. *)
Fixpoint join (sep : jsstring) (parts : list jsstring) : jsstring :=
  match parts with
  | [] => []
  | [p] => p
  | p :: rest => p ++ sep ++ join sep rest
  end.

(** String.prototype.split with a one-unit separator. *)
Fixpoint split (sep : Z) (s : jsstring) : list jsstring :=
  match s with
  | [] => [[]]
  | u :: rest =>
      if u =? sep then [] :: split sep rest
      else match split sep rest with
           | p :: ps => (u :: p) :: ps
           | [] => [[u]]
           end
  end.

(** String.prototype.toLowerCase, on the Basic Latin letters (the only
    letters [toString(16)] and the separator can produce). *)
Definition toLowerCase (s : jsstring) : jsstring :=
  (fun u => if (65 <=? u) && (u <=? 90) then u + 32 else u) <$> s.

Definition hex_value (u : Z) : option Z :=
  if (48 <=? u) && (u <=? 57) then Some (u - 48)
  else if (97 <=? u) && (u <=? 102) then Some (u - 87)
  else if (65 <=? u) && (u <=? 70) then Some (u - 55)
  else None.

(** The longest prefix of hexadecimal digits, read as a number; [acc] is
    [None] until a digit has been read. *)
Fixpoint parse_hex_digits (acc : option Z) (s : jsstring) : option Z :=
  match s with
  | [] => acc
  | u :: rest =>
      match hex_value u with
      | Some d => parse_hex_digits (Some (16 * default 0 acc + d)) rest
      | None => acc
      end
  end.

(** [parseInt(s, 16)]; [None] is NaN.  Leading white space, a sign and a
    [0x] or [0X] prefix are skipped, then the digits are read. *)
Definition parseInt16 (s : jsstring) : option Z :=
  let s1 := trimStart s in
  let '(sign, s2) :=
    match s1 with
    | u :: r => if u =? 45 then (-1, r) else if u =? 43 then (1, r) else (1, s1)
    | [] => (1, s1)
    end in
  let s3 :=
    match s2 with
    | z :: x :: r => if (z =? 48) && ((x =? 120) || (x =? 88)) then r else s2
    | _ => s2
    end in
  Z.mul sign <$> parse_hex_digits None s3.

(** [String.fromCodePoint(...nums)]: a RangeError on NaN and on a number
    outside 0..0x10FFFF. *)
Fixpoint fromCodePoint (nums : list (option Z)) : Result jsstring :=
  match nums with
  | [] => Ok []
  | None :: _ => Throw (Error "Invalid code point NaN")
  | Some n :: rest =>
      if (0 <=? n) && (n <=? 0x10FFFF) then
        match fromCodePoint rest with
        | Ok s => Ok (utf16 n ++ s)
        | Throw e => Throw e
        end
      else Throw (Error ("Invalid code point " +:+ toString10 n))
  end.

(** ** The metadata document *)

(** Modelled from the spec: [src/types.ts] is not among the source files.
    Section 3 of the specification gives the three record types; the
    fields of a combination other than these two are passed through and
    never read by the code. *)
Record Combination := {
  gStaticUrl : string;
  isLatest : bool
}.

Record EmojiData := {
  combinations : gmap jsstring (list Combination)
}.

Record EmojiMetadata := {
  knownSupportedEmoji : list jsstring;
  data : gmap jsstring EmojiData
}.

(** ** src/utils.ts *)

Module Utils.

(** [let emojiMetadata: EmojiMetadata]: [None] while it is [undefined]. *)
Definition Store := option EmojiMetadata.

Definition initial : Store := None.

Definition setEmojiMetadata (metadata : EmojiMetadata) (_ : Store) : Store :=
  Some metadata.

(** The [for] loop of [getEmojiCodepoint]: [i] is the loop index,
    [codePoints] the array built so far.  One unit of fuel per iteration;
    [emoji.length] iterations are never exceeded. *)
Fixpoint getEmojiCodepoint_loop (fuel : nat) (emoji : jsstring) (i : nat)
    (codePoints : list jsstring) : list jsstring :=
  match fuel with
  | O => codePoints
  | S fuel' =>
      if (i <? length emoji)%nat then
        match codePointAt emoji i with
        | Some code =>
            getEmojiCodepoint_loop fuel' emoji
              (if 0xffff <? code then S (S i) else S i)
              (codePoints ++ [toString16 code])
        | None => codePoints
        end
      else codePoints
  end.

Definition getEmojiCodepoint (emoji : jsstring) : jsstring :=
  toLowerCase
    (join [45] (getEmojiCodepoint_loop (length emoji) emoji 0 [])).

Definition not_loaded : JsError := Error "元数据未加载".

Definition getEmojiData (emojiCodepoint : jsstring) (st : Store)
  : Result (option EmojiData) :=
  match st with
  | None => Throw not_loaded
  | Some emojiMetadata => Ok (data emojiMetadata !! emojiCodepoint)
  end.

Definition getSupportedEmoji (st : Store) : Result (list jsstring) :=
  match st with
  | None => Throw not_loaded
  | Some emojiMetadata => Ok (knownSupportedEmoji emojiMetadata)
  end.

Definition toPrintableEmoji (emojiCodepoint : jsstring) : Result jsstring :=
  fromCodePoint (parseInt16 <$> split 45 emojiCodepoint).

End Utils.

(** ** The world the plugin runs in *)

Inductive Path := MetadataPath | CachePath.   (* metadata.json, metadata.cache.json *)

Inductive FsOp :=
| OpMkdir
| OpAccess (p : Path)
| OpReadFile (p : Path)
| OpWriteFile (p : Path).

(** [interface CacheMeta { etag?: string; lastModified?: string }]. *)
Record CacheMeta := {
  etag : option string;
  lastModified : option string
}.

(** What [JSON.parse] makes of the text of the descriptor file: the value
    [null], or a value whose [etag] and [lastModified] can be read (an
    object with or without them; a number, a string, a boolean and an
    array have neither). *)
Inductive Descriptor :=
| Null
| Object (cacheMeta : CacheMeta).

Module HTTP.

(** The headers of a response, as the two loaders read them: by property
    access ([headers['etag']]) and by the [get] method
    ([headers.get('etag')]). *)
Record Headers := {
  property : string -> option string;
  get : string -> option string
}.

(** What the [decoder] returns; [data] is [None] when there is no body. *)
Record Response := {
  url : string;
  data : option string;
  status : Z;
  statusText : string;
  headers : Headers
}.

(** The promise of [ctx.http.get]: fulfilled with a response or rejected. *)
Inductive Outcome :=
| Fulfilled (r : Response)
| Rejected (e : JsError).

End HTTP.

Record Config := {
  autoUpdate : bool;
  updateInterval : Z;
  metadataUrl : string;
  timeout : Z
}.

(** Everything outside the plugin: the server behind [ctx.http.get], the
    disk operations that fail, and the JSON built-ins, typed by the use
    the code makes of them ([None]: JSON.parse throws).  The metadata
    document is taken at its declared type; the descriptor, whose
    properties are read outside the [try] that parses it, may be [null]. *)
Record Env := {
  http_get : string -> list (string * string) -> Z -> HTTP.Outcome;
  fs_fails : FsOp -> bool;
  JSON_parse_metadata : string -> option EmojiMetadata;
  JSON_parse_cache : string -> option Descriptor;
  JSON_stringify_cache : CacheMeta -> string
}.

Inductive Level := Info | Err.

(** The effects the code performs, in the order it performs them. *)
Inductive Event :=
| EvMkdir
| EvAccess (p : Path)
| EvReadFile (p : Path)
| EvWriteFile (p : Path) (content : string)
| EvHttpGet (url : string) (hdrs : list (string * string))
| EvLog (l : Level) (args : list string)
| EvSetInterval (ms : Z)
| EvGetEmojiCodepoint (emoji : jsstring)
| EvGetEmojiData (emojiCodepoint : jsstring)
| EvUnhandledRejection (e : JsError).

(** A call of the async [loadMetadata] that nobody awaits, suspended at
    its first [await]: in the branch of the file that exists, or inside
    the download of the other branch. *)
Inductive Task := LoadExisting | LoadMissing.

Record World := {
  metadata_json : option string;
  metadata_cache_json : option string;
  emojiMetadata : Utils.Store;
  detached : list Task;
  trace : list Event
}.

Definition file (p : Path) (w : World) : option string :=
  match p with
  | MetadataPath => metadata_json w
  | CachePath => metadata_cache_json w
  end.

(** The world after some more events. *)
Definition emits (evs : list Event) (w : World) : World :=
  {| metadata_json := metadata_json w;
     metadata_cache_json := metadata_cache_json w;
     emojiMetadata := emojiMetadata w;
     detached := detached w;
     trace := trace w ++ evs |}.

Definition emit (ev : Event) (w : World) : World := emits [ev] w.

Definition store_file (p : Path) (content : string) (w : World) : World :=
  {| metadata_json :=
       match p with MetadataPath => Some content | CachePath => metadata_json w end;
     metadata_cache_json :=
       match p with CachePath => Some content | MetadataPath => metadata_cache_json w end;
     emojiMetadata := emojiMetadata w;
     detached := detached w;
     trace := trace w |}.

Definition with_store (st : Utils.Store) (w : World) : World :=
  {| metadata_json := metadata_json w;
     metadata_cache_json := metadata_cache_json w;
     emojiMetadata := st;
     detached := detached w;
     trace := trace w |}.

Definition with_detached (ts : list Task) (w : World) : World :=
  {| metadata_json := metadata_json w;
     metadata_cache_json := metadata_cache_json w;
     emojiMetadata := emojiMetadata w;
     detached := ts;
     trace := trace w |}.

(** Computations: a result or a thrown error, and the world after. *)
Definition M (A : Type) : Type := World -> Result A * World.

Definition ret {A} (a : A) : M A := fun w => (Ok a, w).

Definition throw {A} (e : JsError) : M A := fun w => (Throw e, w).

Definition bind {A B} (m : M A) (k : A -> M B) : M B :=
  fun w =>
    match m w with
    | (Ok a, w') => k a w'
    | (Throw e, w') => (Throw e, w')
    end.

(** [try { m } catch (error) { handler }]. *)
Definition try_catch {A} (m : M A) (handler : JsError -> M A) : M A :=
  fun w =>
    match m w with
    | (Ok a, w') => (Ok a, w')
    | (Throw e, w') => handler e w'
    end.

Declare Scope js_scope.
Delimit Scope js_scope with js.
Notation "x <- m ;; k" := (bind m (fun x => k))
  (at level 100, m at next level, right associativity) : js_scope.
Notation "m ;; k" := (bind m (fun _ => k))
  (at level 100, right associativity) : js_scope.

Definition fs_error (op : FsOp) : JsError :=
  {| response := None; code := Some "EIO"; message := "EIO: i/o error" |}.

Definition enoent (op : FsOp) : JsError :=
  {| response := None; code := Some "ENOENT";
     message := "ENOENT: no such file or directory" |}.

Definition SyntaxError : JsError := Error "Unexpected token in JSON".

Section Primitives.
Variable env : Env.

Definition existsSync (p : Path) : M bool :=
  fun w => (Ok (match file p w with Some _ => true | None => false end), w).

Definition mkdir : M unit :=
  fun w =>
    if fs_fails env OpMkdir then (Throw (fs_error OpMkdir), w)
    else (Ok tt, emit EvMkdir w).

Definition access (p : Path) : M unit :=
  fun w =>
    if fs_fails env (OpAccess p) then (Throw (fs_error (OpAccess p)), w)
    else match file p w with
         | Some _ => (Ok tt, emit (EvAccess p) w)
         | None => (Throw (enoent (OpAccess p)), w)
         end.

Definition readFile (p : Path) : M string :=
  fun w =>
    if fs_fails env (OpReadFile p) then (Throw (fs_error (OpReadFile p)), w)
    else match file p w with
         | Some content => (Ok content, emit (EvReadFile p) w)
         | None => (Throw (enoent (OpReadFile p)), w)
         end.

(** A write that fails leaves the file as it was. *)
Definition writeFile (p : Path) (content : string) : M unit :=
  fun w =>
    if fs_fails env (OpWriteFile p) then (Throw (fs_error (OpWriteFile p)), w)
    else (Ok tt, emit (EvWriteFile p content) (store_file p content w)).

Definition ctx_http_get (url : string) (hdrs : list (string * string))
    (tmo : Z) : M HTTP.Response :=
  fun w =>
    match http_get env url hdrs tmo with
    | HTTP.Fulfilled r => (Ok r, emit (EvHttpGet url hdrs) w)
    | HTTP.Rejected e => (Throw e, emit (EvHttpGet url hdrs) w)
    end.

Definition logger (l : Level) (args : list string) : M unit :=
  fun w => (Ok tt, emit (EvLog l args) w).

Definition JSON_parse {A} (parse : string -> option A) (text : string) : M A :=
  match parse text with
  | Some v => ret v
  | None => throw SyntaxError
  end.

Definition setEmojiMetadata (metadata : EmojiMetadata) : M unit :=
  fun w => (Ok tt, with_store (Utils.setEmojiMetadata metadata (emojiMetadata w)) w).

Definition getEmojiCodepoint (emoji : jsstring) : M jsstring :=
  fun w => (Ok (Utils.getEmojiCodepoint emoji), emit (EvGetEmojiCodepoint emoji) w).

Definition getEmojiData (emojiCodepoint : jsstring) : M (option EmojiData) :=
  fun w => (Utils.getEmojiData emojiCodepoint (emojiMetadata w),
            emit (EvGetEmojiData emojiCodepoint) w).

(** Calling an async function without [await]: the caller goes on, the
    callee is left to the event loop. *)
Definition spawn (t : Task) : M unit :=
  fun w => (Ok tt, with_detached (detached w ++ [t]) w).

(** A string is truthy when it is defined and not empty. *)
Definition truthy (s : option string) : bool :=
  match s with
  | Some v => negb (String.eqb v "")
  | None => false
  end.

(** [!response.data || response.data.byteLength === 0]. *)
Definition no_data (d : option string) : bool :=
  match d with
  | Some b => (String.length b =? 0)%nat
  | None => true
  end.

End Primitives.

(** What a command hands back to the host. *)
Inductive Reply :=
| Usage_missing                            (* '请输入两个emoji表情' *)
| Usage_exactly_two                        (* '请输入恰好两个emoji表情' *)
| Not_found (first second : jsstring)      (* `找不到 ${first} 和 ${second} 的组合` *)
| Image (url : string)                     (* segment.image(combo.gStaticUrl) *)
| Failed (msg : string)                    (* `处理失败: ${error.message}` *)
| Updated_reply                            (* '元数据更新成功' *)
| Unchanged_reply.                         (* '元数据未变更' *)

(** The request headers built from the descriptor read from disk. *)
Definition request_headers (cacheMeta : CacheMeta) : list (string * string) :=
  (if truthy (etag cacheMeta)
   then [("If-None-Match", default "" (etag cacheMeta))] else [])
  ++ (if truthy (lastModified cacheMeta)
      then [("If-Modified-Since", default "" (lastModified cacheMeta))] else []).

(** Reading a property of [null] throws a TypeError. *)
Definition null_descriptor : JsError :=
  Error "Cannot read properties of null (reading 'etag')".

(** Lines 76 to 78 of src/index.ts (71 to 73 of the sibling): the headers
    of the request, from the descriptor that was read.  They are built
    outside the inner [try]. *)
Definition conditional_headers (cacheMeta : Descriptor)
  : M (list (string * string)) :=
  match cacheMeta with
  | Null => throw null_descriptor
  | Object m => ret (request_headers m)
  end.

(** The event loop: the oldest detached call is resumed and runs to its
    end; its rejection is nobody's to catch. *)
Definition run_detached (resume : Task -> M unit) (w : World) : World :=
  match detached w with
  | [] => w
  | t :: ts =>
      match resume t (with_detached ts w) with
      | (Ok _, w') => w'
      | (Throw e, w') => emit (EvUnhandledRejection e) w'
      end
  end.

Fixpoint settle (resume : Task -> M unit) (fuel : nat) (w : World) : World :=
  match fuel with
  | O => w
  | S fuel' =>
      match detached w with
      | [] => w
      | _ => settle resume fuel' (run_detached resume w)
      end
  end.

(** ** src/index.ts *)

Module Index.
Section WithEnv.
Variable env : Env.
Variable config : Config.
Local Open Scope js_scope.

Definition read_cacheMeta : M Descriptor :=
  try_catch
    (cacheData <- readFile env CachePath ;;
     JSON_parse (JSON_parse_cache env) cacheData)
    (fun _ => ret (Object {| etag := None; lastModified := None |})).

(** Lines 86 to 103: what the [try] block does with the response. *)
Definition on_response (response : HTTP.Response) : M bool :=
  if HTTP.status response =? 304 then
    (logger Info ["目标文件未发送变化，本次跳过更新"] ;; ret false)
  else if no_data (HTTP.data response) then
    throw (Error "服务器响应数据为空")
  else
    (writeFile env MetadataPath (default "" (HTTP.data response)) ;;
     let newMeta :=
       {| etag := HTTP.property (HTTP.headers response) "etag";
          lastModified := HTTP.property (HTTP.headers response) "last-modified" |} in
     writeFile env CachePath (JSON_stringify_cache env newMeta) ;;
     logger Info ["下载成功"] ;;
     ret true).

(** Lines 104 to 115: the [catch] block. *)
Definition on_error (error : JsError) : M bool :=
  match response error with
  | Some (st, stText) =>
      logger Err ["HTTP错误 [" +:+ toString10 st +:+ "]: " +:+ stText] ;;
      throw (Error ("服务器响应异常: " +:+ toString10 st))
  | None =>
      if bool_decide (code error = Some "ECONNABORTED") then
        (logger Err ["请求超时，请检查网络连接或调整超时时间"] ;;
         throw (Error "下载超时"))
      else
        (logger Err ["元数据下载失败:"; message error] ;;
         throw error)
  end.

Definition downloadMetadata : M bool :=
  try_catch
    (mkdir env ;;
     cacheMeta <- read_cacheMeta ;;
     headers <- conditional_headers cacheMeta ;;
     response <- ctx_http_get env (metadataUrl config) headers (timeout config) ;;
     on_response response)
    on_error.

(** The branch of [loadMetadata] for a file that exists. *)
Definition loadMetadata_existing : M unit :=
  try_catch
    (access env MetadataPath ;;
     text <- readFile env MetadataPath ;;
     metadata <- JSON_parse (JSON_parse_metadata env) text ;;
     setEmojiMetadata metadata ;;
     logger Info ["元数据加载完成"])
    (fun error => throw (Error ("元数据加载失败: " +:+ message error))).

(** [loadMetadata(ctx);] as line 130 has it, without [await]: the callee
    runs up to its first [await] and is left suspended there. *)
Definition loadMetadata_unawaited : M unit :=
  present <- existsSync MetadataPath ;;
  if negb present then
    (logger Info ["元数据文件不存在，尝试下载"] ;; spawn LoadMissing)
  else spawn LoadExisting.

(** The branch of [loadMetadata] for a missing file, from the download on. *)
Definition loadMetadata_missing : M unit :=
  success <- downloadMetadata ;;
  if negb success then throw (Error "元数据文件下载失败")
  else
    (logger Info ["元数据文件下载成功"] ;;
     loadMetadata_unawaited).

Definition loadMetadata : M unit :=
  present <- existsSync MetadataPath ;;
  if negb present then
    (logger Info ["元数据文件不存在，尝试下载"] ;; loadMetadata_missing)
  else loadMetadata_existing.

Definition resume (t : Task) : M unit :=
  match t with
  | LoadExisting => loadMetadata_existing
  | LoadMissing => loadMetadata_missing
  end.

(** One tick of the timer of [apply]. *)
Definition interval_callback : M unit :=
  try_catch
    (updated <- downloadMetadata ;;
     if updated then loadMetadata else ret tt)
    (fun error => logger Err ["定时更新失败:"; message error]).

(** [apply]: the awaited load, then the timer; registering the two
    commands changes nothing the model tracks. *)
Definition apply : M unit :=
  loadMetadata ;;
  if autoUpdate config then
    (fun w => (Ok tt, emit (EvSetInterval (updateInterval config * 1000)) w))
  else ret tt.

(** The action of the command [emoji.update]. *)
Definition update_action : M Reply :=
  updated <- downloadMetadata ;;
  if updated then (loadMetadata ;; ret Updated_reply)
  else ret Unchanged_reply.

(** The action of the command [emoji <emojis:string>]; [None] is an
    argument the host did not supply. *)
Definition emoji_action (emojis : option jsstring) : M Reply :=
  match emojis with
  | None | Some [] => ret Usage_missing
  | Some emojis =>
      let emojiArr := Array_from (trim emojis) in
      match emojiArr with
      | [first; second] =>
          try_catch
            (cp1 <- getEmojiCodepoint first ;;
             cp2 <- getEmojiCodepoint second ;;
             data1 <- getEmojiData cp1 ;;
             match data1 ≫= (fun d => combinations d !! cp2) with
             | None | Some [] => ret (Not_found first second)
             | Some ((c0 :: _) as combinations) =>
                 let combo :=
                   match List.find isLatest combinations with
                   | Some c => c
                   | None => c0
                   end in
                 ret (Image (gStaticUrl combo))
             end)
            (fun error => ret (Failed (message error)))
      | _ => ret Usage_exactly_two
      end
  end.

End WithEnv.
End Index.

(** ** The sibling loader (second copy of index.ts)

    It differs from [src/index.ts] in the refresh ([getMetadataFile]
    swallows every failure and an empty body, and reads the headers with
    [get]) and in [loadMetadata] (which revalidates a file that exists and
    never parses it).  Its two commands are those of [src/index.ts] word
    for word, with [getMetadataFile] for [downloadMetadata]. *)

Module Sibling.
Section WithEnv.
Variable env : Env.
Variable config : Config.
Local Open Scope js_scope.

(** Lines 80 to 96: what the [try] block does with the response. *)
Definition on_response (response : HTTP.Response) : M bool :=
  if HTTP.status response =? 304 then
    (logger Info ["目标文件未发送变化，本次跳过更新"] ;; ret false)
  else if no_data (HTTP.data response) then
    (logger Info ["服务器响应数据为空"] ;; ret false)
  else
    (logger Info ["开始更新文件"] ;;
     writeFile env MetadataPath (default "" (HTTP.data response)) ;;
     let newMeta :=
       {| etag := HTTP.get (HTTP.headers response) "etag";
          lastModified := HTTP.get (HTTP.headers response) "last-modified" |} in
     writeFile env CachePath (JSON_stringify_cache env newMeta) ;;
     logger Info ["下载成功"] ;;
     ret true).

(** Lines 98 to 109: the [catch] block. *)
Definition on_error (error : JsError) : M bool :=
  match response error with
  | Some (st, stText) =>
      logger Err ["HTTP错误 [" +:+ toString10 st +:+ "]: " +:+ stText] ;;
      ret false
  | None =>
      if bool_decide (code error = Some "ECONNABORTED") then
        (logger Err ["请求超时，请检查网络连接或调整超时时间"] ;; ret false)
      else
        (logger Err ["元数据下载失败:"; message error] ;; ret false)
  end.

Definition getMetadataFile : M bool :=
  try_catch
    (mkdir env ;;
     cacheMeta <- Index.read_cacheMeta env ;;
     headers <- conditional_headers cacheMeta ;;
     response <- ctx_http_get env (metadataUrl config) headers (timeout config) ;;
     on_response response)
    on_error.

(** The branch of [loadMetadata] for a file that exists, from the
    refresh on (the descriptor is known to exist). *)
Definition loadMetadata_existing : M unit :=
  updated <- getMetadataFile ;;
  if updated then logger Info ["元数据文件已更新"]
  else logger Info ["元数据文件未更新"].

(** [loadMetadata(ctx, config);] as line 134 has it, without [await]. *)
Definition loadMetadata_unawaited : M unit :=
  present <- existsSync MetadataPath ;;
  if present then
    (described <- existsSync CachePath ;;
     if described then spawn LoadExisting else ret tt)
  else
    (logger Info ["元数据文件不存在，尝试下载"] ;; spawn LoadMissing).

Definition loadMetadata_missing : M unit :=
  success <- getMetadataFile ;;
  if negb success then throw (Error "元数据文件下载失败")
  else
    (logger Info ["元数据文件下载成功"] ;;
     loadMetadata_unawaited).

Definition loadMetadata : M unit :=
  present <- existsSync MetadataPath ;;
  if present then
    (described <- existsSync CachePath ;;
     if described then loadMetadata_existing else ret tt)
  else
    (logger Info ["元数据文件不存在，尝试下载"] ;; loadMetadata_missing).

Definition resume (t : Task) : M unit :=
  match t with
  | LoadExisting => loadMetadata_existing
  | LoadMissing => loadMetadata_missing
  end.

Definition apply : M unit :=
  loadMetadata ;;
  if autoUpdate config then
    (fun w => (Ok tt, emit (EvSetInterval (updateInterval config * 1000)) w))
  else ret tt.

(** One tick of the timer of [apply]. *)
Definition interval_callback : M unit :=
  try_catch
    (updated <- getMetadataFile ;;
     if updated then loadMetadata else ret tt)
    (fun error => logger Err ["定时更新失败:"; message error]).

(** The action of the command [emoji.update]. *)
Definition update_action : M Reply :=
  updated <- getMetadataFile ;;
  if updated then (loadMetadata ;; ret Updated_reply)
  else ret Unchanged_reply.

End WithEnv.
End Sibling.

(** * Vocabulary of the properties *)

(** A code unit of a JavaScript string. *)
Definition code_unit (u : Z) : Prop := 0 <= u <= 0xFFFF.

Definition is_lower_hex (u : Z) : bool :=
  ((48 <=? u) && (u <=? 57)) || ((97 <=? u) && (u <=? 102)).

(** The code points of a string, read left to right as [codePointAt]
    reads them. *)
Fixpoint code_points (s : jsstring) : list Z :=
  match s with
  | [] => []
  | u :: rest =>
      if is_high_surrogate u then
        match rest with
        | l :: rest' =>
            if is_low_surrogate l
            then ((u - 0xD800) * 0x400 + (l - 0xDC00) + 0x10000) :: code_points rest'
            else u :: code_points rest
        | [] => [u]
        end
      else u :: code_points rest
  end.

Ltac bool_to_Z :=
  repeat match goal with
  | H : _ && _ = true |- _ => apply andb_prop in H; destruct H
  | H : _ || _ = true |- _ => apply orb_prop in H
  | H : _ || _ = false |- _ => apply orb_false_elim in H; destruct H
  | H : negb _ = true |- _ => apply negb_true_iff in H
  | H : (_ <=? _) = true |- _ => apply Z.leb_le in H
  | H : (_ <=? _) = false |- _ => apply Z.leb_gt in H
  | H : (_ <? _) = true |- _ => apply Z.ltb_lt in H
  | H : (_ <? _) = false |- _ => apply Z.ltb_ge in H
  | H : (_ =? _) = true |- _ => apply Z.eqb_eq in H
  | H : (_ =? _) = false |- _ => apply Z.eqb_neq in H
  end.

Ltac case_Z_tests :=
  repeat match goal with
  | |- context [?a <=? ?b] => destruct (Z.leb_spec a b)
  | |- context [?a <? ?b] => destruct (Z.ltb_spec a b)
  | |- context [?a =? ?b] => destruct (Z.eqb_spec a b)
  end.

(** The calls a client of [utils.ts] can make, and the module variable
    after a sequence of them, from the state the module starts in. *)
Inductive StoreCall :=
| Call_setEmojiMetadata (metadata : EmojiMetadata)
| Call_getEmojiData (emojiCodepoint : jsstring)
| Call_getSupportedEmoji.

Definition is_load (c : StoreCall) : bool :=
  match c with Call_setEmojiMetadata _ => true | _ => false end.

Definition store_step (st : Utils.Store) (c : StoreCall) : Utils.Store :=
  match c with
  | Call_setEmojiMetadata metadata => Utils.setEmojiMetadata metadata st
  | Call_getEmojiData _ | Call_getSupportedEmoji => st
  end.

Definition store_after (calls : list StoreCall) : Utils.Store :=
  foldl store_step Utils.initial calls.

(** The events of a run that started in [w] and ended in [w']. *)
Definition new_events (w w' : World) : list Event :=
  drop (length (trace w)) (trace w').

Definition is_write (ev : Event) : bool :=
  match ev with EvWriteFile _ _ => true | _ => false end.

Definition is_request (ev : Event) : bool :=
  match ev with EvHttpGet _ _ => true | _ => false end.

Definition is_utils_call (ev : Event) : bool :=
  match ev with
  | EvGetEmojiCodepoint _ | EvGetEmojiData _ => true
  | _ => false
  end.

(** The disk writes and the network requests among some events. *)
Definition writes (evs : list Event) : list Event := List.filter is_write evs.
Definition requests (evs : list Event) : list Event := List.filter is_request evs.

(** The descriptor a refresh started in [w] reads. *)
Definition descriptor_on_disk (env : Env) (w : World) : Descriptor :=
  match Index.read_cacheMeta env w with
  | (Ok cacheMeta, _) => cacheMeta
  | (Throw _, _) => Object {| etag := None; lastModified := None |}
  end.

(** How the request step of a refresh started in [w] ends: with the
    answer the server gives to the request the refresh sends or, when the
    descriptor on disk is [null], with the TypeError thrown while the
    headers are built, before any request is sent (it reaches the [catch]
    block as a rejection does). *)
Definition refresh_response (env : Env) (config : Config) (w : World)
  : HTTP.Outcome :=
  match descriptor_on_disk env w with
  | Null => HTTP.Rejected null_descriptor
  | Object m =>
      http_get env (metadataUrl config) (request_headers m) (timeout config)
  end.

(** The requests a refresh started in [w] sends: one, once the directory
    is there and the headers could be built. *)
Definition refresh_requests (env : Env) (config : Config) (w : World)
  : list Event :=
  if fs_fails env OpMkdir then []
  else match descriptor_on_disk env w with
       | Null => []
       | Object m => [EvHttpGet (metadataUrl config) (request_headers m)]
       end.

(** The descriptor text each loader writes for a response. *)
Definition Index_descriptor (env : Env) (r : HTTP.Response) : string :=
  JSON_stringify_cache env
    {| etag := HTTP.property (HTTP.headers r) "etag";
       lastModified := HTTP.property (HTTP.headers r) "last-modified" |}.

Definition Sibling_descriptor (env : Env) (r : HTTP.Response) : string :=
  JSON_stringify_cache env
    {| etag := HTTP.get (HTTP.headers r) "etag";
       lastModified := HTTP.get (HTTP.headers r) "last-modified" |}.

(** A run from [w] to [w'] that wrote neither file. *)
Definition leaves_disk_alone (w w' : World) : Prop :=
  metadata_json w' = metadata_json w
  /\ metadata_cache_json w' = metadata_cache_json w
  /\ writes (new_events w w') = [].

(** What every refresh does, whatever the server and the disk do: it
    sends the request of [refresh_requests] and no other, it leaves the
    store and the detached calls alone, and it returns true only with both
    files on disk. *)
Definition refresh_outcome (env : Env) (config : Config) (w : World)
    (out : Result bool * World) : Prop :=
  exists evs w0,
    snd out = emits evs w0
    /\ emojiMetadata w0 = emojiMetadata w
    /\ detached w0 = detached w
    /\ trace w0 = trace w
    /\ requests evs = refresh_requests env config w
    /\ (fst out = Ok true ->
        is_Some (metadata_json w0) /\ is_Some (metadata_cache_json w0)).

(** The error [loadMetadata] throws for one caught while loading. *)
Definition load_failed (error : JsError) : JsError :=
  Error ("元数据加载失败: " +:+ message error).

(** The code point of a one-character string, as the encoder reads it. *)
Definition code_point_of (ch : jsstring) : Z := default 0 (codePointAt ch 0).

(** A number [String.fromCodePoint] accepts. *)
Definition valid_code_point (o : option Z) : bool :=
  match o with
  | Some n => (0 <=? n) && (n <=? 0x10FFFF)
  | None => false
  end.

(** The contents of the two files. *)
Definition disk (w : World) : option string * option string :=
  (metadata_json w, metadata_cache_json w).

(** The error [downloadMetadata] throws for a request that was rejected
    (lines 105 to 114). *)
Definition Index_rethrown (error : JsError) : JsError :=
  match response error with
  | Some (st, _) => Error ("服务器响应异常: " +:+ toString10 st)
  | None =>
      if bool_decide (code error = Some "ECONNABORTED") then Error "下载超时"
      else error
  end.

(** ** Fixtures

    A concrete environment for the examples: a server with one answer, a
    disk whose faults are listed, and JSON built-ins that agree with
    JSON.parse and JSON.stringify on the texts and values the examples
    use (the document without emoji, the descriptor without fields, the
    value null, and texts that are not JSON). *)

Definition quote : string := String (Ascii.ascii_of_nat 34) EmptyString.

Definition empty_document : EmojiMetadata :=
  {| knownSupportedEmoji := []; data := ∅ |}.

(** The JSON text of [empty_document]: an object with the key
    knownSupportedEmoji bound to an empty array and the key data bound to
    an empty object. *)
Definition empty_document_text : string :=
  "{" +:+ quote +:+ "knownSupportedEmoji" +:+ quote +:+ ":[],"
  +:+ quote +:+ "data" +:+ quote +:+ ":{}}".

Definition fixture_parse_metadata (text : string) : option EmojiMetadata :=
  if String.eqb text empty_document_text then Some empty_document else None.

Definition fixture_parse_cache (text : string) : option Descriptor :=
  if String.eqb text "{}"
  then Some (Object {| etag := None; lastModified := None |})
  else if String.eqb text "null" then Some Null
  else None.

Definition fixture_field (key : string) (value : option string) : list string :=
  match value with
  | Some v => [quote +:+ key +:+ quote +:+ ":" +:+ quote +:+ v +:+ quote]
  | None => []
  end.

(** Fields that are [undefined] are left out; the values of the examples
    need no escaping. *)
Definition fixture_stringify_cache (m : CacheMeta) : string :=
  "{" +:+ String.concat ","
            (fixture_field "etag" (etag m)
             ++ fixture_field "lastModified" (lastModified m))
  +:+ "}".

Definition fixture_env (server : HTTP.Outcome) (faulty : FsOp -> bool) : Env :=
  {| http_get := fun _ _ _ => server;
     fs_fails := faulty;
     JSON_parse_metadata := fixture_parse_metadata;
     JSON_parse_cache := fixture_parse_cache;
     JSON_stringify_cache := fixture_stringify_cache |}.

Definition no_fault (op : FsOp) : bool := false.

Definition fixture_config : Config :=
  {| autoUpdate := true;
     updateInterval := 86400;
     metadataUrl :=
       "https://raw.githubusercontent.com/xsalazar/emoji-kitchen-backend/main/app/metadata.json";
     timeout := 30000 |}.

Definition no_headers : HTTP.Headers :=
  {| HTTP.property := fun _ => None; HTTP.get := fun _ => None |}.

(** Headers carrying an entity tag, whichever way they are read. *)
Definition tagged_headers (tag : string) : HTTP.Headers :=
  let look := fun name : string =>
    if String.eqb name "etag" then Some tag else None in
  {| HTTP.property := look; HTTP.get := look |}.

Definition respond (st : Z) (text : string) (body : option string)
    (hs : HTTP.Headers) : HTTP.Outcome :=
  HTTP.Fulfilled
    {| HTTP.url := metadataUrl fixture_config;
       HTTP.data := body; HTTP.status := st; HTTP.statusText := text;
       HTTP.headers := hs |}.

(** First run: nothing on disk, nothing loaded. *)
Definition first_run : World :=
  {| metadata_json := None; metadata_cache_json := None;
     emojiMetadata := Utils.initial; detached := []; trace := [] |}.

(** A later start: both files on disk from an earlier run. *)
Definition later_run : World :=
  {| metadata_json := Some empty_document_text;
     metadata_cache_json := Some "{}";
     emojiMetadata := Utils.initial; detached := []; trace := [] |}.

(** A parser of descriptors that also knows the descriptor with the
    entity tag v1, and the environment that uses it. *)
Definition tagged_descriptor : CacheMeta :=
  {| etag := Some "v1"; lastModified := None |}.

Definition tagged_parse_cache (text : string) : option Descriptor :=
  if String.eqb text (fixture_stringify_cache tagged_descriptor)
  then Some (Object tagged_descriptor)
  else fixture_parse_cache text.

Definition tagged_env (server : HTTP.Outcome) : Env :=
  {| http_get := fun _ _ _ => server;
     fs_fails := no_fault;
     JSON_parse_metadata := fixture_parse_metadata;
     JSON_parse_cache := tagged_parse_cache;
     JSON_stringify_cache := fixture_stringify_cache |}.

(** A start with a descriptor file that holds the JSON value null. *)
Definition null_run : World :=
  {| metadata_json := Some empty_document_text;
     metadata_cache_json := Some "null";
     emojiMetadata := Utils.initial; detached := []; trace := [] |}.

(** A start with a descriptor that is not JSON. *)
Definition corrupt_run : World :=
  {| metadata_json := Some empty_document_text;
     metadata_cache_json := Some "{etag";
     emojiMetadata := Utils.initial; detached := []; trace := [] |}.

(** A document with one pair: face with tears of joy (U+1F602) with dog
    face (U+1F436), in three renderings of which the last two are marked
    latest. *)
Definition joy : jsstring := [0xD83D; 0xDE02].
Definition dog : jsstring := [0xD83D; 0xDC36].

Definition rendering (url : string) (latest : bool) : Combination :=
  {| gStaticUrl := url; isLatest := latest |}.

Definition joy_dog : list Combination :=
  [rendering "https://www.gstatic.com/android/keyboard/emojikitchen/20201001/u1f602/u1f602_u1f436.png" false;
   rendering "https://www.gstatic.com/android/keyboard/emojikitchen/20230301/u1f602/u1f602_u1f436.png" true;
   rendering "https://www.gstatic.com/android/keyboard/emojikitchen/20240206/u1f602/u1f602_u1f436.png" true].

Definition joy_entry : EmojiData :=
  {| combinations := {[ Utils.getEmojiCodepoint dog := joy_dog ]} |}.

Definition kitchen : EmojiMetadata :=
  {| knownSupportedEmoji := [Utils.getEmojiCodepoint joy; Utils.getEmojiCodepoint dog];
     data := {[ Utils.getEmojiCodepoint joy := joy_entry ]} |}.

Definition serving : World :=
  {| metadata_json := None; metadata_cache_json := None;
     emojiMetadata := Some kitchen; detached := []; trace := [] |}.

(** * Properties *)

(** ** Hexadecimal text *)

Lemma hex_value_digit d : 0 <= d < 16 -> hex_value (hex_digit d) = Some d.
Proof.
  intros Hd. unfold hex_value, hex_digit.
  destruct (Z.ltb_spec d 10); case_Z_tests; simpl; try lia; f_equal; lia.
Qed.

Lemma is_lower_hex_digit d : 0 <= d < 16 -> is_lower_hex (hex_digit d) = true.
Proof.
  intros Hd. unfold is_lower_hex, hex_digit.
  destruct (Z.ltb_spec d 10); case_Z_tests; simpl; first [reflexivity | lia].
Qed.

Lemma is_lower_hex_value u : is_lower_hex u = true -> is_Some (hex_value u).
Proof.
  unfold is_lower_hex, hex_value. intros H.
  case_Z_tests; simpl in *; eauto; discriminate.
Qed.

Lemma parse_hex_digits_app acc s1 s2 :
  Forall (fun u => is_lower_hex u = true) s1 ->
  parse_hex_digits acc (s1 ++ s2) = parse_hex_digits (parse_hex_digits acc s1) s2.
Proof.
  intros H. revert acc. induction H as [|u s1 Hu _ IH]; intros acc; simpl.
  - reflexivity.
  - destruct (is_lower_hex_value u Hu) as [d ->]. apply IH.
Qed.

Lemma hex_digits_lower fuel n :
  0 <= n -> Forall (fun u => is_lower_hex u = true) (hex_digits fuel n).
Proof.
  revert n. induction fuel as [|fuel IH]; intros n Hn; simpl.
  - constructor.
  - destruct (Z.ltb_spec n 16).
    + repeat constructor. apply is_lower_hex_digit. lia.
    + apply Forall_app. split.
      * apply IH. apply Z.div_pos; lia.
      * repeat constructor. apply is_lower_hex_digit.
        apply Z.mod_pos_bound. lia.
Qed.

Lemma hex_digits_value fuel n :
  0 <= n < 16 ^ Z.of_nat (S fuel) ->
  parse_hex_digits None (hex_digits (S fuel) n) = Some n.
Proof.
  revert n. induction fuel as [|fuel IH]; intros n Hn.
  - change (16 ^ Z.of_nat 1) with 16 in Hn. simpl.
    destruct (Z.ltb_spec n 16); [|lia].
    simpl. rewrite hex_value_digit by lia. simpl. f_equal; lia.
  - remember (S fuel) as fuel' eqn:Hf. simpl hex_digits.
    destruct (Z.ltb_spec n 16).
    + simpl. rewrite hex_value_digit by lia. simpl. f_equal; lia.
    + rewrite parse_hex_digits_app
        by (apply hex_digits_lower; apply Z.div_pos; lia).
      subst fuel'. rewrite IH.
      * simpl. rewrite hex_value_digit by (apply Z.mod_pos_bound; lia).
        simpl. pose proof (Z.div_mod n 16). f_equal; lia.
      * rewrite (Nat2Z.inj_succ (S fuel)), Z.pow_succ_r in Hn by lia.
        split; [apply Z.div_pos; lia|].
        apply Z.div_lt_upper_bound; lia.
Qed.

Lemma toString16_fuel n : 0 <= n -> n < 16 ^ Z.of_nat (S (Z.to_nat (Z.log2 n))).
Proof.
  intros Hn. rewrite Nat2Z.inj_succ, Z2Nat.id by apply Z.log2_nonneg.
  destruct (Z.eq_dec n 0) as [->|Hne].
  - simpl. lia.
  - pose proof (Z.log2_spec n ltac:(lia)) as [_ Hlt].
    pose proof (Z.log2_nonneg n).
    eapply Z.lt_le_trans; [exact Hlt|].
    apply Z.pow_le_mono_l. lia.
Qed.

Lemma toString16_value n :
  0 <= n -> parse_hex_digits None (toString16 n) = Some n.
Proof.
  intros Hn. unfold toString16. destruct (Z.ltb_spec n 0); [lia|].
  apply hex_digits_value. split; [lia|]. by apply toString16_fuel.
Qed.

Lemma toString16_lower n :
  0 <= n -> Forall (fun u => is_lower_hex u = true) (toString16 n).
Proof.
  intros Hn. unfold toString16. destruct (Z.ltb_spec n 0); [lia|].
  by apply hex_digits_lower.
Qed.

Lemma toString16_nonempty n : 0 <= n -> toString16 n <> [].
Proof.
  intros Hn E. pose proof (toString16_value n Hn) as H.
  rewrite E in H. discriminate.
Qed.

(** ** The loop of the encoder *)

Lemma getEmojiCodepoint_loop_code_points fuel (s : jsstring) i acc :
  Forall code_unit s ->
  (length s - i <= fuel)%nat ->
  Utils.getEmojiCodepoint_loop fuel s i acc
  = acc ++ (toString16 <$> code_points (drop i s)).
Proof.
  intros Hs. revert i acc.
  induction fuel as [|fuel IH]; intros i acc Hfuel; simpl.
  - rewrite drop_ge by lia. simpl. by rewrite app_nil_r.
  - destruct (Nat.ltb_spec i (length s)) as [Hi|Hi];
      [|rewrite drop_ge by lia; simpl; by rewrite app_nil_r].
    destruct (lookup_lt_is_Some_2 s i Hi) as [u Hu].
    pose proof (Forall_lookup_1 _ _ _ _ Hs Hu) as Hr. unfold code_unit in Hr.
    unfold codePointAt. rewrite Hu, (drop_S _ _ _ Hu). simpl code_points.
    destruct (is_high_surrogate u) eqn:Hhigh.
    + destruct (s !! S i) as [l|] eqn:Hl.
      * rewrite (drop_S _ _ _ Hl).
        destruct (is_low_surrogate l) eqn:Hlow.
        -- unfold is_high_surrogate, is_low_surrogate in Hhigh, Hlow. bool_to_Z.
           destruct (Z.ltb_spec 0xffff
             ((u - 0xD800) * 0x400 + (l - 0xDC00) + 0x10000)); [|lia].
           rewrite IH by lia. rewrite fmap_cons, <- app_assoc. reflexivity.
        -- destruct (Z.ltb_spec 0xffff u); [lia|].
           rewrite IH by lia. rewrite (drop_S _ _ _ Hl), fmap_cons, <- app_assoc.
           reflexivity.
      * destruct (Z.ltb_spec 0xffff u); [lia|].
        rewrite IH by lia.
        apply lookup_ge_None_1 in Hl. rewrite (drop_ge s (S i)) by lia.
        rewrite <- app_assoc. reflexivity.
    + destruct (Z.ltb_spec 0xffff u); [lia|].
      rewrite IH by lia. rewrite fmap_cons, <- app_assoc. reflexivity.
Qed.

Lemma code_points_nonneg (s : jsstring) :
  Forall code_unit s -> Forall (fun c => 0 <= c) (code_points s).
Proof.
  remember (length s) as n eqn:Hn. revert s Hn.
  induction (lt_wf n) as [n _ IH]. intros s -> Hs.
  destruct s as [|u rest]; simpl; [constructor|].
  inversion Hs as [|? ? Hu Hrest]; subst. unfold code_unit in Hu.
  destruct (is_high_surrogate u) eqn:Hhigh.
  - destruct rest as [|l rest']; [repeat constructor; lia|].
    inversion Hrest as [|? ? Hl Hrest']; subst. unfold code_unit in Hl.
    destruct (is_low_surrogate l) eqn:Hlow.
    + unfold is_high_surrogate, is_low_surrogate in Hhigh, Hlow. bool_to_Z.
      constructor; [lia|]. eapply IH; [|reflexivity|done]. simpl. lia.
    + constructor; [lia|]. eapply IH; [|reflexivity|done]. simpl. lia.
  - constructor; [lia|]. eapply IH; [|reflexivity|done]. simpl. lia.
Qed.

Lemma toLowerCase_hex (s : jsstring) :
  Forall (fun u => is_lower_hex u = true \/ u = 45) s -> toLowerCase s = s.
Proof.
  unfold toLowerCase. induction 1 as [|u s Hu _ IH]; [reflexivity|].
  rewrite fmap_cons, IH. f_equal.
  destruct Hu as [Hu| ->]; [|reflexivity].
  unfold is_lower_hex in Hu.
  destruct (Z.leb_spec 65 u), (Z.leb_spec u 90); simpl; try reflexivity.
  bool_to_Z. destruct Hu; bool_to_Z; lia.
Qed.

Lemma join_hex (parts : list jsstring) :
  Forall (Forall (fun u => is_lower_hex u = true)) parts ->
  Forall (fun u => is_lower_hex u = true \/ u = 45) (join [45] parts).
Proof.
  induction 1 as [|p parts Hp _ IH]; [constructor|].
  assert (Forall (fun u => is_lower_hex u = true \/ u = 45) p) as Hp'
    by (eapply Forall_impl; [exact Hp|]; simpl; tauto).
  simpl. destruct parts as [|q parts]; [exact Hp'|].
  apply Forall_app; split; [exact Hp'|].
  constructor; [tauto|exact IH].
Qed.

Lemma toString16_code_points_lower (s : jsstring) :
  Forall code_unit s ->
  Forall (Forall (fun u => is_lower_hex u = true)) (toString16 <$> code_points s).
Proof.
  intros Hs. apply Forall_fmap.
  eapply Forall_impl; [apply code_points_nonneg, Hs|].
  intros c Hc. by apply toString16_lower.
Qed.

(** The encoder as one equation: the code points, each in hexadecimal,
    joined with hyphens. *)
Lemma getEmojiCodepoint_code_points (s : jsstring) :
  Forall code_unit s ->
  Utils.getEmojiCodepoint s = join [45] (toString16 <$> code_points s).
Proof.
  intros Hs. unfold Utils.getEmojiCodepoint.
  rewrite getEmojiCodepoint_loop_code_points by (done || lia).
  rewrite drop_0, app_nil_l.
  by apply toLowerCase_hex, join_hex, toString16_code_points_lower.
Qed.

(** ** UTF-16 encoding and decoding *)

Lemma utf16_pair_bounds c :
  0xFFFF < c <= 0x10FFFF ->
  is_high_surrogate (0xD800 + (c - 0x10000) / 0x400) = true
  /\ is_low_surrogate (0xDC00 + (c - 0x10000) mod 0x400) = true
  /\ (0xD800 + (c - 0x10000) / 0x400 - 0xD800) * 0x400
     + (0xDC00 + (c - 0x10000) mod 0x400 - 0xDC00) + 0x10000 = c.
Proof.
  intros Hc. unfold is_high_surrogate, is_low_surrogate.
  rewrite !andb_true_iff, !Z.leb_le. Z.div_mod_to_equations. lia.
Qed.

Lemma scalar_code_points c :
  is_scalar c = true ->
  Forall code_unit (utf16 c) /\ code_points (utf16 c) = [c].
Proof.
  unfold is_scalar, is_surrogate, utf16, code_unit. intros Hc.
  apply andb_prop in Hc as [Hc Hns]. bool_to_Z.
  destruct (Z.leb_spec c 0xFFFF) as [Hle|Hgt].
  - split; [repeat constructor; lia|]. simpl.
    replace (is_high_surrogate c) with false; [reflexivity|].
    unfold is_high_surrogate. symmetry. apply andb_false_iff.
    rewrite !Z.leb_gt. apply andb_false_iff in Hns. rewrite !Z.leb_gt in Hns. lia.
  - destruct (utf16_pair_bounds c ltac:(lia)) as (Hh & Hl & Heq).
    split.
    + unfold is_high_surrogate, is_low_surrogate in Hh, Hl. bool_to_Z.
      repeat constructor; lia.
    + cbn [code_points]. rewrite Hh, Hl, Heq. reflexivity.
Qed.

Lemma code_points_utf16 (s : jsstring) :
  well_formed s = true ->
  Forall code_unit s
  /\ Forall (fun c => 0 <= c <= 0x10FFFF) (code_points s)
  /\ concat (utf16 <$> code_points s) = s.
Proof.
  remember (length s) as n eqn:Hn. revert s Hn.
  induction (lt_wf n) as [n _ IH]. intros s -> Hs.
  destruct s as [|u rest]; [repeat split; constructor|].
  cbn [well_formed code_points] in *.
  destruct (is_high_surrogate u) eqn:Hhigh.
  - destruct rest as [|l rest']; [discriminate|].
    apply andb_prop in Hs as [Hlow Hs]. rewrite Hlow.
    destruct (IH (length rest') ltac:(simpl; lia) rest' eq_refl Hs)
      as (Hu & Hc & Hj).
    unfold is_high_surrogate, is_low_surrogate in Hhigh, Hlow. bool_to_Z.
    split; [|split].
    + unfold code_unit. repeat constructor; try lia. exact Hu.
    + constructor; [lia|exact Hc].
    + rewrite fmap_cons, concat_cons, Hj. unfold utf16.
      destruct (Z.leb_spec ((u - 0xD800) * 0x400 + (l - 0xDC00) + 0x10000) 0xFFFF);
        [lia|].
      simpl app. f_equal; [|f_equal]; Z.div_mod_to_equations; lia.
  - apply andb_prop in Hs as [Hs Hwf]. bool_to_Z.
    destruct (IH (length rest) ltac:(simpl; lia) rest eq_refl Hwf)
      as (Hu & Hc & Hj).
    split; [|split].
    + unfold code_unit. constructor; [lia|exact Hu].
    + constructor; [lia|exact Hc].
    + rewrite fmap_cons, concat_cons, Hj. unfold utf16.
      destruct (Z.leb_spec u 0xFFFF); [reflexivity|lia].
Qed.

(** ** Splitting what was joined *)

Lemma split_no_separator sep (s : jsstring) :
  Forall (fun u => u <> sep) s -> split sep s = [s].
Proof.
  induction 1 as [|u s Hu _ IH]; [reflexivity|].
  simpl. rewrite IH. destruct (Z.eqb_spec u sep); [done|reflexivity].
Qed.

Lemma split_app_separator sep (p rest : jsstring) :
  Forall (fun u => u <> sep) p ->
  split sep (p ++ sep :: rest) = p :: split sep rest.
Proof.
  induction 1 as [|u p Hu _ IH]; simpl.
  - by rewrite Z.eqb_refl.
  - rewrite IH. destruct (Z.eqb_spec u sep); [done|reflexivity].
Qed.

Lemma split_join sep (parts : list jsstring) :
  parts <> [] ->
  Forall (Forall (fun u => u <> sep)) parts ->
  split sep (join [sep] parts) = parts.
Proof.
  intros Hne H. induction H as [|p parts Hp Hparts IH]; [done|].
  destruct parts as [|q parts].
  - simpl. by apply split_no_separator.
  - change (join [sep] (p :: q :: parts))
      with (p ++ sep :: join [sep] (q :: parts)).
    rewrite split_app_separator by done. f_equal. by apply IH.
Qed.

Lemma lower_hex_not_hyphen (s : jsstring) :
  Forall (fun u => is_lower_hex u = true) s -> Forall (fun u => u <> 45) s.
Proof.
  intros H. eapply Forall_impl; [exact H|]. intros u Hu ->. discriminate.
Qed.

(** ** Reading back what [toString(16)] printed *)

Lemma parseInt16_lower_hex (s : jsstring) :
  s <> [] ->
  Forall (fun u => is_lower_hex u = true) s ->
  parseInt16 s = parse_hex_digits None s.
Proof.
  intros Hne Hs. destruct s as [|u r]; [done|].
  inversion Hs as [|? ? Hu Hr]; subst.
  assert (is_js_space u = false) as Hsp.
  { unfold is_lower_hex in Hu. unfold is_js_space.
    assert (48 <= u <= 102) by (apply orb_prop in Hu as [Hu|Hu]; bool_to_Z; lia).
    repeat match goal with
    | |- context [u =? ?k] => rewrite (proj2 (Z.eqb_neq u k)) by lia
    end.
    rewrite (proj2 (Z.leb_gt 0x2000 u)) by lia. reflexivity. }
  unfold parseInt16. cbn [trimStart]. rewrite Hsp.
  destruct (Z.eqb_spec u 45) as [->|_]; [discriminate|].
  destruct (Z.eqb_spec u 43) as [->|_]; [discriminate|].
  assert (forall o : option Z, Z.mul 1 <$> o = o) as Hone
    by (intros [z|]; simpl; [f_equal; lia|reflexivity]).
  destruct r as [|x r']; [apply Hone|].
  inversion Hr as [|? ? Hx _]; subst.
  destruct (Z.eqb_spec x 120) as [->|_]; [discriminate|].
  destruct (Z.eqb_spec x 88) as [->|_]; [discriminate|].
  rewrite andb_false_r. apply Hone.
Qed.

Lemma parseInt16_toString16 n : 0 <= n -> parseInt16 (toString16 n) = Some n.
Proof.
  intros Hn. rewrite parseInt16_lower_hex.
  - by apply toString16_value.
  - by apply toString16_nonempty.
  - by apply toString16_lower.
Qed.

Lemma fromCodePoint_utf16 (cs : list Z) :
  Forall (fun c => 0 <= c <= 0x10FFFF) cs ->
  fromCodePoint (Some <$> cs) = Ok (concat (utf16 <$> cs)).
Proof.
  induction 1 as [|c cs Hc _ IH]; [reflexivity|].
  rewrite !fmap_cons. cbn [fromCodePoint].
  destruct (Z.leb_spec 0 c); [|lia].
  destruct (Z.leb_spec c 0x10FFFF); [|lia].
  simpl andb. cbv iota. rewrite IH, concat_cons. reflexivity.
Qed.

Lemma code_points_nil (s : jsstring) : code_points s = [] -> s = [].
Proof.
  destruct s as [|u rest]; [done|]. simpl.
  destruct (is_high_surrogate u); [|done].
  destruct rest as [|l rest']; [done|]. by destruct (is_low_surrogate l).
Qed.

Lemma parseInt16_code_points (cs : list Z) :
  Forall (fun c => 0 <= c) cs ->
  parseInt16 <$> (toString16 <$> cs) = Some <$> cs.
Proof.
  induction 1 as [|c cs Hc _ IH]; [reflexivity|].
  rewrite !fmap_cons, IH, parseInt16_toString16 by done. reflexivity.
Qed.

(** ** The codepoint encoder *)

(** C4.  The encoder applied to the UTF-16 form of one Unicode scalar
    value [c] returns the hexadecimal text of [c]: a non-empty run of the
    digits 0-9 and a-f whose value is [c], which holds no hyphen and so is
    one segment.  The two code units of U+1F600 give the five units of
    1f600.  (Being a function of its argument, the encoder is
    deterministic.) *)
Theorem C4_getEmojiCodepoint_single_scalar (c : Z) :
  is_scalar c = true ->
  let cp := Utils.getEmojiCodepoint (utf16 c) in
  cp = toString16 c
  /\ cp <> []
  /\ Forall (fun u => is_lower_hex u = true) cp
  /\ parse_hex_digits None cp = Some c
  /\ split 45 cp = [cp]
  /\ Utils.getEmojiCodepoint [0xD83D; 0xDE00] = [49; 102; 54; 48; 48].
Proof.
  intros Hc cp.
  destruct (scalar_code_points c Hc) as [Hunits Hcps].
  assert (0 <= c) as Hnn
    by (unfold is_scalar in Hc; bool_to_Z; lia).
  assert (cp = toString16 c) as Hcp.
  { unfold cp. rewrite getEmojiCodepoint_code_points by done.
    rewrite Hcps. reflexivity. }
  rewrite Hcp. split; [reflexivity|].
  split; [by apply toString16_nonempty|].
  split; [by apply toString16_lower|].
  split; [by apply toString16_value|].
  split; [|reflexivity].
  by apply split_no_separator, lower_hex_not_hyphen, toString16_lower.
Qed.

Lemma C4_getEmojiCodepoint_single_scalar_witness :
  is_scalar 0x1F600 = true
  /\ Utils.getEmojiCodepoint (utf16 0x1F600) = toString16 0x1F600
  /\ split 45 (Utils.getEmojiCodepoint (utf16 0x1F600))
     = [Utils.getEmojiCodepoint (utf16 0x1F600)].
Proof.
  split; [reflexivity|].
  pose proof (C4_getEmojiCodepoint_single_scalar 0x1F600 eq_refl) as H.
  simpl in H. destruct H as (H1 & _ & _ & _ & H5 & _).
  split; [exact H1|exact H5].
Defined.

(** C10.  Decoding what the encoder produced gives the string back, for
    every non-empty string without lone surrogates; on the empty string
    the encoder returns the empty string, on which the decoder throws. *)
Theorem C10_toPrintableEmoji_getEmojiCodepoint (s : jsstring) :
  s <> [] ->
  well_formed s = true ->
  Utils.toPrintableEmoji (Utils.getEmojiCodepoint s) = Ok s
  /\ Utils.getEmojiCodepoint [] = []
  /\ Utils.toPrintableEmoji (Utils.getEmojiCodepoint [])
     = Throw (Error "Invalid code point NaN").
Proof.
  intros Hne Hwf. split; [|split; reflexivity].
  destruct (code_points_utf16 s Hwf) as (Hunits & Hrange & Hjoin).
  rewrite getEmojiCodepoint_code_points by done.
  unfold Utils.toPrintableEmoji. rewrite split_join.
  - rewrite parseInt16_code_points by (by apply code_points_nonneg).
    rewrite fromCodePoint_utf16 by done. by rewrite Hjoin.
  - intros E. apply fmap_nil_inv in E. by apply code_points_nil in E.
  - eapply Forall_impl; [by apply toString16_code_points_lower|].
    apply lower_hex_not_hyphen.
Qed.

Lemma C10_toPrintableEmoji_getEmojiCodepoint_witness :
  Utils.toPrintableEmoji (Utils.getEmojiCodepoint [0xD83D; 0xDE02; 0xD83D; 0xDC36])
  = Ok [0xD83D; 0xDE02; 0xD83D; 0xDC36].
Proof.
  apply (C10_toPrintableEmoji_getEmojiCodepoint [0xD83D; 0xDE02; 0xD83D; 0xDC36]).
  - discriminate.
  - reflexivity.
Defined.

(** ** The metadata store *)

Lemma foldl_store_step_loaded (st : Utils.Store) (calls : list StoreCall) :
  is_Some (foldl store_step st calls)
  <-> is_Some st \/ existsb is_load calls = true.
Proof.
  revert st. induction calls as [|c calls IH]; intros st; simpl.
  - split; [tauto|]. intros [?|?]; [done|discriminate].
  - rewrite IH. destruct c; simpl; try tauto.
    unfold Utils.setEmojiMetadata. split; [tauto|]. intros _. left. eauto.
Qed.

Lemma store_after_loaded (calls : list StoreCall) :
  is_Some (store_after calls) <-> existsb is_load calls = true.
Proof.
  unfold store_after. rewrite foldl_store_step_loaded. unfold Utils.initial.
  split; [intros [[? ?]|?]; [discriminate|done]|tauto].
Qed.

(** C7.  After any sequence of calls of the store, a query throws the
    NotLoaded error exactly when no [setEmojiMetadata] is among the calls
    made before it; once one is, neither query throws. *)
Theorem C7_queries_raise_iff_never_loaded
    (calls : list StoreCall) (emojiCodepoint : jsstring) :
  if existsb is_load calls
  then raises (Utils.getEmojiData emojiCodepoint (store_after calls)) = false
       /\ raises (Utils.getSupportedEmoji (store_after calls)) = false
  else Utils.getEmojiData emojiCodepoint (store_after calls)
       = Throw Utils.not_loaded
       /\ Utils.getSupportedEmoji (store_after calls) = Throw Utils.not_loaded.
Proof.
  pose proof (store_after_loaded calls) as H.
  destruct (existsb is_load calls).
  - destruct (proj2 H eq_refl) as [m ->]. split; reflexivity.
  - destruct (store_after calls) as [m|] eqn:E; [|split; reflexivity].
    assert (false = true) by (apply H; eauto). discriminate.
Qed.

(** ** Worlds and traces *)

Lemma emits_nil w : emits [] w = w.
Proof. destruct w. unfold emits. simpl. by rewrite app_nil_r. Qed.

Lemma emits_emits evs1 evs2 w : emits evs2 (emits evs1 w) = emits (evs1 ++ evs2) w.
Proof. unfold emits. simpl. by rewrite app_assoc. Qed.

Lemma new_events_emits w w0 evs :
  trace w0 = trace w -> new_events w (emits evs w0) = evs.
Proof.
  intros H. unfold new_events, emits. simpl. rewrite H. apply drop_app_length.
Qed.

Lemma writes_app evs1 evs2 : writes (evs1 ++ evs2) = writes evs1 ++ writes evs2.
Proof. apply List.filter_app. Qed.

Lemma requests_app evs1 evs2 :
  requests (evs1 ++ evs2) = requests evs1 ++ requests evs2.
Proof. apply List.filter_app. Qed.

(** Reading the descriptor never throws, never writes and never asks the
    network. *)
Lemma read_cacheMeta_spec env w :
  exists evs,
    Index.read_cacheMeta env w = (Ok (descriptor_on_disk env w), emits evs w)
    /\ writes evs = [] /\ requests evs = [].
Proof.
  unfold descriptor_on_disk, Index.read_cacheMeta, try_catch, bind, readFile,
    JSON_parse, ret, throw, emit.
  destruct (fs_fails env (OpReadFile CachePath)).
  { exists []. by rewrite emits_nil. }
  simpl. destruct (metadata_cache_json w) as [text|].
  - destruct (JSON_parse_cache env text); by exists [EvReadFile CachePath].
  - exists []. by rewrite emits_nil.
Qed.

Lemma descriptor_on_disk_emits env evs w :
  descriptor_on_disk env (emits evs w) = descriptor_on_disk env w.
Proof.
  unfold descriptor_on_disk, Index.read_cacheMeta, try_catch, bind, readFile,
    JSON_parse, ret, throw, emit.
  destruct (fs_fails env (OpReadFile CachePath)); [reflexivity|].
  simpl. destruct (metadata_cache_json w) as [text|]; [|reflexivity].
  by destruct (JSON_parse_cache env text).
Qed.

(** ** The refresh, up to the response *)

(** What the request step makes of a descriptor that is not [null]. *)
Lemma refresh_response_object env config w m :
  descriptor_on_disk env w = Object m ->
  refresh_response env config w
  = http_get env (metadataUrl config) (request_headers m) (timeout config)
  /\ refresh_requests env config w
     = (if fs_fails env OpMkdir then []
        else [EvHttpGet (metadataUrl config) (request_headers m)]).
Proof. intros H. unfold refresh_response, refresh_requests. by rewrite H. Qed.

(** The request a refresh started in [w] sends. *)
Lemma Index_downloadMetadata_fulfilled env config w r :
  fs_fails env OpMkdir = false ->
  refresh_response env config w = HTTP.Fulfilled r ->
  exists evs,
    writes evs = []
    /\ requests evs = refresh_requests env config w
    /\ Index.downloadMetadata env config w
       = try_catch (Index.on_response env r) Index.on_error (emits evs w).
Proof.
  intros Hmkdir Hresp.
  destruct (read_cacheMeta_spec env (emit EvMkdir w)) as (evs & Hread & Hw & Hr).
  unfold emit in Hread. rewrite descriptor_on_disk_emits in Hread.
  destruct (descriptor_on_disk env w) as [|m] eqn:Hd;
    [unfold refresh_response in Hresp; rewrite Hd in Hresp; discriminate|].
  destruct (refresh_response_object env config w m Hd) as [Hresp' Hreq].
  rewrite Hresp' in Hresp. rewrite Hreq, Hmkdir.
  unfold Index.downloadMetadata, try_catch at 1, bind at 1 2 3 4, mkdir, emit.
  rewrite Hmkdir, Hread. unfold conditional_headers, ret at 1, ctx_http_get.
  rewrite Hresp. unfold emit. rewrite !emits_emits.
  eexists. split; [|split; [|reflexivity]].
  - rewrite !writes_app, Hw. reflexivity.
  - rewrite !requests_app, Hr. reflexivity.
Qed.

Lemma Sibling_getMetadataFile_fulfilled env config w r :
  fs_fails env OpMkdir = false ->
  refresh_response env config w = HTTP.Fulfilled r ->
  exists evs,
    writes evs = []
    /\ requests evs = refresh_requests env config w
    /\ Sibling.getMetadataFile env config w
       = try_catch (Sibling.on_response env r) Sibling.on_error (emits evs w).
Proof.
  intros Hmkdir Hresp.
  destruct (read_cacheMeta_spec env (emit EvMkdir w)) as (evs & Hread & Hw & Hr).
  unfold emit in Hread. rewrite descriptor_on_disk_emits in Hread.
  destruct (descriptor_on_disk env w) as [|m] eqn:Hd;
    [unfold refresh_response in Hresp; rewrite Hd in Hresp; discriminate|].
  destruct (refresh_response_object env config w m Hd) as [Hresp' Hreq].
  rewrite Hresp' in Hresp. rewrite Hreq, Hmkdir.
  unfold Sibling.getMetadataFile, try_catch at 1, bind at 1 2 3 4, mkdir, emit.
  rewrite Hmkdir, Hread. unfold conditional_headers, ret at 1, ctx_http_get.
  rewrite Hresp. unfold emit. rewrite !emits_emits.
  eexists. split; [|split; [|reflexivity]].
  - rewrite !writes_app, Hw. reflexivity.
  - rewrite !requests_app, Hr. reflexivity.
Qed.

Ltac js_run :=
  unfold try_catch, bind, ret, throw, logger, writeFile, emit;
  cbn beta iota.

Ltac trace_simpl :=
  unfold leaves_disk_alone, new_events; cbn [fst snd trace metadata_json metadata_cache_json
    emojiMetadata detached emits store_file with_store with_detached];
  rewrite <- ?app_assoc, ?drop_app_length, ?writes_app, ?requests_app.

(** ** The cache controller *)

(** C6.  When the server answers 304 to the request of a refresh, the
    refresh (of either loader) returns false, the NotModified outcome, and
    writes neither the metadata file nor the descriptor file. *)
Theorem C6_not_modified_leaves_disk_alone env config w r :
  fs_fails env OpMkdir = false ->
  refresh_response env config w = HTTP.Fulfilled r ->
  HTTP.status r = 304 ->
  (fst (Index.downloadMetadata env config w) = Ok false
   /\ leaves_disk_alone w (snd (Index.downloadMetadata env config w)))
  /\ (fst (Sibling.getMetadataFile env config w) = Ok false
      /\ leaves_disk_alone w (snd (Sibling.getMetadataFile env config w))).
Proof.
  intros Hmkdir Hresp H304. split.
  - destruct (Index_downloadMetadata_fulfilled env config w r Hmkdir Hresp)
      as (evs & Hw & _ & ->).
    unfold Index.on_response. rewrite H304, Z.eqb_refl. js_run.
    split; [reflexivity|]. trace_simpl. by rewrite Hw.
  - destruct (Sibling_getMetadataFile_fulfilled env config w r Hmkdir Hresp)
      as (evs & Hw & _ & ->).
    unfold Sibling.on_response. rewrite H304, Z.eqb_refl. js_run.
    split; [reflexivity|]. trace_simpl. by rewrite Hw.
Qed.

Lemma C6_not_modified_leaves_disk_alone_witness :
  fst (Index.downloadMetadata
         (fixture_env (respond 304 "Not Modified" None no_headers) no_fault)
         fixture_config later_run) = Ok false
  /\ fst (Sibling.getMetadataFile
            (fixture_env (respond 304 "Not Modified" None no_headers) no_fault)
            fixture_config later_run) = Ok false.
Proof.
  pose proof (C6_not_modified_leaves_disk_alone
    (fixture_env (respond 304 "Not Modified" None no_headers) no_fault)
    fixture_config later_run _ eq_refl eq_refl eq_refl) as [[H1 _] [H2 _]].
  split; [exact H1|exact H2].
Defined.

(** C1, as the code has it.  When the server answers with a 2xx status
    and no body (absent or of length zero), neither loader writes the
    metadata file or the descriptor file; [getMetadataFile] returns false,
    the NotModified outcome, and [downloadMetadata] of src/index.ts throws
    the error it builds for the empty body. *)
Theorem C1_empty_body_no_write env config w r :
  fs_fails env OpMkdir = false ->
  refresh_response env config w = HTTP.Fulfilled r ->
  200 <= HTTP.status r < 300 ->
  no_data (HTTP.data r) = true ->
  (fst (Sibling.getMetadataFile env config w) = Ok false
   /\ leaves_disk_alone w (snd (Sibling.getMetadataFile env config w)))
  /\ (fst (Index.downloadMetadata env config w)
      = Throw (Error "服务器响应数据为空")
      /\ leaves_disk_alone w (snd (Index.downloadMetadata env config w))).
Proof.
  intros Hmkdir Hresp H2xx Hempty.
  assert ((HTTP.status r =? 304) = false) as Hne by (apply Z.eqb_neq; lia).
  split.
  - destruct (Sibling_getMetadataFile_fulfilled env config w r Hmkdir Hresp)
      as (evs & Hw & _ & ->).
    unfold Sibling.on_response. rewrite Hne, Hempty. js_run.
    split; [reflexivity|]. trace_simpl. by rewrite Hw.
  - destruct (Index_downloadMetadata_fulfilled env config w r Hmkdir Hresp)
      as (evs & Hw & _ & ->).
    unfold Index.on_response. rewrite Hne, Hempty. js_run.
    unfold Index.on_error, Error. cbn [response code message].
    rewrite bool_decide_eq_false_2 by discriminate. js_run.
    split; [reflexivity|]. trace_simpl. by rewrite Hw.
Qed.

Lemma C1_empty_body_no_write_witness :
  fst (Sibling.getMetadataFile
         (fixture_env (respond 200 "OK" (Some "") no_headers) no_fault)
         fixture_config later_run) = Ok false
  /\ fst (Index.downloadMetadata
            (fixture_env (respond 200 "OK" (Some "") no_headers) no_fault)
            fixture_config later_run) = Throw (Error "服务器响应数据为空").
Proof.
  pose proof (C1_empty_body_no_write
    (fixture_env (respond 200 "OK" (Some "") no_headers) no_fault)
    fixture_config later_run _ eq_refl eq_refl ltac:(simpl; lia) eq_refl)
    as [[H1 _] [H2 _]].
  split; [exact H1|exact H2].
Defined.

(** C1, as the specification states it, fails on [downloadMetadata]: the server
    answers 200 with a body of length zero, and the refresh throws instead
    of returning false. *)
Lemma C1_downloadMetadata_empty_body_throws :
  let env := fixture_env (respond 200 "OK" (Some "") no_headers) no_fault in
  refresh_response env fixture_config later_run
  = respond 200 "OK" (Some "") no_headers
  /\ fst (Index.downloadMetadata env fixture_config later_run) <> Ok false
  /\ raises (fst (Index.downloadMetadata env fixture_config later_run)) = true.
Proof.
  split; [reflexivity|]. split; [|reflexivity].
  vm_compute. discriminate.
Qed.

(** C5.  When the server answers the request of a refresh with a status
    other than 304 and a body that is not empty, the disk writes of the
    refresh are, in this order, the body to the metadata file and the new
    descriptor (built from the etag and last-modified headers of that
    response) to the descriptor file, or a beginning of that sequence when
    a disk operation fails: the descriptor is never written unless the
    body was written before it.  When no disk operation fails both writes
    happen, both files hold what was written, and the refresh returns
    true, the Updated outcome.  This holds of both loaders. *)
Theorem C5_body_before_descriptor env config w r body :
  refresh_response env config w = HTTP.Fulfilled r ->
  HTTP.status r <> 304 ->
  HTTP.data r = Some body ->
  no_data (Some body) = false ->
  let updated (out : Result bool * World) (descriptor : string) :=
    writes (new_events w (snd out))
      `prefix_of` [EvWriteFile MetadataPath body; EvWriteFile CachePath descriptor]
    /\ (fs_fails env OpMkdir = false ->
        fs_fails env (OpWriteFile MetadataPath) = false ->
        fs_fails env (OpWriteFile CachePath) = false ->
        fst out = Ok true
        /\ writes (new_events w (snd out))
           = [EvWriteFile MetadataPath body; EvWriteFile CachePath descriptor]
        /\ metadata_json (snd out) = Some body
        /\ metadata_cache_json (snd out) = Some descriptor) in
  updated (Index.downloadMetadata env config w) (Index_descriptor env r)
  /\ updated (Sibling.getMetadataFile env config w) (Sibling_descriptor env r).
Proof.
  intros Hresp H304 Hdata Hbody updated.
  assert ((HTTP.status r =? 304) = false) as Hne by (by apply Z.eqb_neq).
  destruct (fs_fails env OpMkdir) eqn:Hmkdir.
  { (* the directory cannot be made: nothing is requested, nothing written *)
    split; (split; [|discriminate]).
    - unfold Index.downloadMetadata, try_catch at 1, bind at 1, mkdir.
      rewrite Hmkdir. unfold Index.on_error. cbn [response code message fs_error].
      rewrite bool_decide_eq_false_2 by discriminate. js_run. trace_simpl.
      apply prefix_nil.
    - unfold Sibling.getMetadataFile, try_catch at 1, bind at 1, mkdir.
      rewrite Hmkdir. unfold Sibling.on_error. cbn [response code message fs_error].
      rewrite bool_decide_eq_false_2 by discriminate. js_run. trace_simpl.
      apply prefix_nil. }
  split.
  - destruct (Index_downloadMetadata_fulfilled env config w r Hmkdir Hresp)
      as (evs & Hw & _ & ->).
    unfold updated, Index.on_response, Index_descriptor.
    rewrite Hne, Hdata, Hbody. js_run. cbn [default from_option id].
    destruct (fs_fails env (OpWriteFile MetadataPath)) eqn:Hwm.
    { split; [|discriminate]. unfold Index.on_error.
      cbn [response code message fs_error].
      rewrite bool_decide_eq_false_2 by discriminate. js_run. trace_simpl.
      rewrite Hw. apply prefix_nil. }
    destruct (fs_fails env (OpWriteFile CachePath)) eqn:Hwc.
    { split; [|discriminate]. unfold Index.on_error.
      cbn [response code message fs_error].
      rewrite bool_decide_eq_false_2 by discriminate. js_run. trace_simpl.
      rewrite Hw. by eexists. }
    split; [|intros _ _ _; split; [reflexivity|split; [|split; reflexivity]]].
    + trace_simpl. rewrite Hw. by exists [].
    + trace_simpl. by rewrite Hw.
  - destruct (Sibling_getMetadataFile_fulfilled env config w r Hmkdir Hresp)
      as (evs & Hw & _ & ->).
    unfold updated, Sibling.on_response, Sibling_descriptor.
    rewrite Hne, Hdata, Hbody. js_run. cbn [default from_option id].
    destruct (fs_fails env (OpWriteFile MetadataPath)) eqn:Hwm.
    { split; [|discriminate]. unfold Sibling.on_error.
      cbn [response code message fs_error].
      rewrite bool_decide_eq_false_2 by discriminate. js_run. trace_simpl.
      rewrite Hw. apply prefix_nil. }
    destruct (fs_fails env (OpWriteFile CachePath)) eqn:Hwc.
    { split; [|discriminate]. unfold Sibling.on_error.
      cbn [response code message fs_error].
      rewrite bool_decide_eq_false_2 by discriminate. js_run. trace_simpl.
      rewrite Hw. by eexists. }
    split; [|intros _ _ _; split; [reflexivity|split; [|split; reflexivity]]].
    + trace_simpl. rewrite Hw. by exists [].
    + trace_simpl. by rewrite Hw.
Qed.

Lemma C5_body_before_descriptor_witness :
  let env := fixture_env
               (respond 200 "OK" (Some empty_document_text) (tagged_headers "v1"))
               no_fault in
  let out := Index.downloadMetadata env fixture_config first_run in
  fst out = Ok true
  /\ writes (new_events first_run (snd out))
     = [EvWriteFile MetadataPath empty_document_text;
        EvWriteFile CachePath
          ("{" +:+ quote +:+ "etag" +:+ quote +:+ ":" +:+ quote +:+ "v1" +:+ quote +:+ "}")]
  /\ metadata_json (snd out) = Some empty_document_text.
Proof.
  intros env out.
  destruct (C5_body_before_descriptor env fixture_config first_run _
              empty_document_text eq_refl ltac:(discriminate) eq_refl eq_refl)
    as [[_ H] _].
  destruct (H eq_refl eq_refl eq_refl) as (H1 & H2 & H3 & _).
  split; [exact H1|]. split; [exact H2|exact H3].
Defined.

(** ** Every refresh *)

Lemma store_file_emits p content evs w :
  store_file p content (emits evs w) = emits evs (store_file p content w).
Proof. reflexivity. Qed.

Lemma with_store_emits st evs w :
  with_store st (emits evs w) = emits evs (with_store st w).
Proof. reflexivity. Qed.

Lemma with_detached_emits ts evs w :
  with_detached ts (emits evs w) = emits evs (with_detached ts w).
Proof. reflexivity. Qed.

Ltac refresh_leaf :=
  js_run; rewrite ?store_file_emits, ?emits_emits;
  intros [= <- <-]; eexists _, _;
  split; [reflexivity|];
  cbn [trace metadata_json metadata_cache_json emojiMetadata detached
       emits store_file];
  do 3 (split; [reflexivity|]);
  split;
  [ unfold requests in *;
    repeat first
      [ progress cbn [List.filter is_request app]
      | rewrite List.filter_app
      | match goal with
        | H : List.filter is_request _ = _ |- _ => rewrite H
        end ];
    reflexivity
  | first [discriminate | intros _; split; eauto] ].

Ltac fs_error_caught :=
  cbn [response code message fs_error Error];
  rewrite bool_decide_eq_false_2 by discriminate.

Lemma Index_downloadMetadata_outcome env config w :
  refresh_outcome env config w (Index.downloadMetadata env config w).
Proof.
  unfold refresh_outcome, refresh_requests.
  destruct (Index.downloadMetadata env config w) as [res w'] eqn:E.
  cbn [fst snd]. revert E.
  destruct (fs_fails env OpMkdir) eqn:Hmkdir.
  { unfold Index.downloadMetadata, try_catch at 1, bind at 1, mkdir.
    rewrite Hmkdir. unfold Index.on_error. fs_error_caught. refresh_leaf. }
  destruct (read_cacheMeta_spec env (emit EvMkdir w)) as (evs & Hread & _ & Hr).
  unfold emit in Hread. rewrite descriptor_on_disk_emits in Hread.
  unfold Index.downloadMetadata, try_catch at 1, bind at 1 2 3 4, mkdir, emit.
  rewrite Hmkdir, Hread. unfold conditional_headers.
  destruct (descriptor_on_disk env w) as [|m].
  { js_run. unfold Index.on_error, null_descriptor. fs_error_caught.
    refresh_leaf. }
  unfold ret at 1, ctx_http_get.
  destruct (http_get env (metadataUrl config) (request_headers m) (timeout config))
    as [r|e].
  - unfold Index.on_response.
    destruct (HTTP.status r =? 304); [refresh_leaf|].
    destruct (no_data (HTTP.data r)).
    { js_run. unfold Index.on_error. fs_error_caught. refresh_leaf. }
    js_run.
    destruct (fs_fails env (OpWriteFile MetadataPath)).
    { unfold Index.on_error. fs_error_caught. refresh_leaf. }
    destruct (fs_fails env (OpWriteFile CachePath)).
    { unfold Index.on_error. fs_error_caught. refresh_leaf. }
    refresh_leaf.
  - unfold Index.on_error. destruct (response e) as [[st txt]|].
    + refresh_leaf.
    + destruct (bool_decide (code e = Some "ECONNABORTED")); refresh_leaf.
Qed.

Lemma Sibling_getMetadataFile_outcome env config w :
  refresh_outcome env config w (Sibling.getMetadataFile env config w)
  /\ raises (fst (Sibling.getMetadataFile env config w)) = false.
Proof.
  unfold refresh_outcome, refresh_requests.
  destruct (Sibling.getMetadataFile env config w) as [res w'] eqn:E.
  cbn [fst snd].
  enough (raises res = false /\ exists evs w0, w' = emits evs w0
    /\ emojiMetadata w0 = emojiMetadata w /\ detached w0 = detached w
    /\ trace w0 = trace w
    /\ requests evs
       = (if fs_fails env OpMkdir then []
          else match descriptor_on_disk env w with
               | Null => []
               | Object m => [EvHttpGet (metadataUrl config) (request_headers m)]
               end)
    /\ (res = Ok true ->
        is_Some (metadata_json w0) /\ is_Some (metadata_cache_json w0)))
    by tauto.
  revert E.
  assert (forall (X : Result bool * World) (P : Prop),
            (X = (res, w') -> raises res = false) ->
            (X = (res, w') -> P) -> X = (res, w') -> raises res = false /\ P)
    as Hboth by tauto.
  destruct (fs_fails env OpMkdir) eqn:Hmkdir.
  { unfold Sibling.getMetadataFile, try_catch at 1, bind at 1, mkdir.
    rewrite Hmkdir. unfold Sibling.on_error. fs_error_caught.
    apply Hboth; [js_run; by intros [= <- <-]|refresh_leaf]. }
  destruct (read_cacheMeta_spec env (emit EvMkdir w)) as (evs & Hread & _ & Hr).
  unfold emit in Hread. rewrite descriptor_on_disk_emits in Hread.
  unfold Sibling.getMetadataFile, try_catch at 1, bind at 1 2 3 4, mkdir, emit.
  rewrite Hmkdir, Hread. unfold conditional_headers.
  destruct (descriptor_on_disk env w) as [|m].
  { js_run. unfold Sibling.on_error, null_descriptor. fs_error_caught.
    apply Hboth; [js_run; by intros [= <- <-]|refresh_leaf]. }
  unfold ret at 1, ctx_http_get.
  destruct (http_get env (metadataUrl config) (request_headers m) (timeout config))
    as [r|e].
  - unfold Sibling.on_response.
    destruct (HTTP.status r =? 304);
      [apply Hboth; [by intros [= <- <-]|refresh_leaf]|].
    destruct (no_data (HTTP.data r));
      [apply Hboth; [by intros [= <- <-]|refresh_leaf]|].
    js_run.
    destruct (fs_fails env (OpWriteFile MetadataPath)).
    { unfold Sibling.on_error. fs_error_caught.
      apply Hboth; [by intros [= <- <-]|refresh_leaf]. }
    destruct (fs_fails env (OpWriteFile CachePath)).
    { unfold Sibling.on_error. fs_error_caught.
      apply Hboth; [by intros [= <- <-]|refresh_leaf]. }
    apply Hboth; [by intros [= <- <-]|refresh_leaf].
  - unfold Sibling.on_error. destruct (response e) as [[st txt]|].
    + apply Hboth; [by intros [= <- <-]|refresh_leaf].
    + destruct (bool_decide (code e = Some "ECONNABORTED"));
        (apply Hboth; [by intros [= <- <-]|refresh_leaf]).
Qed.

(** ** The refresh orchestrator *)

(** The load of a file that exists, case by case. *)
Lemma Index_loadMetadata_existing_cases env w text :
  metadata_json w = Some text ->
  Index.loadMetadata_existing env w =
    if fs_fails env (OpAccess MetadataPath) then
      (Throw (load_failed (fs_error (OpAccess MetadataPath))), w)
    else if fs_fails env (OpReadFile MetadataPath) then
      (Throw (load_failed (fs_error (OpReadFile MetadataPath))),
       emits [EvAccess MetadataPath] w)
    else
      match JSON_parse_metadata env text with
      | Some metadata =>
          (Ok tt,
           emits [EvAccess MetadataPath; EvReadFile MetadataPath;
                  EvLog Info ["元数据加载完成"]]
             (with_store (Some metadata) w))
      | None =>
          (Throw (load_failed SyntaxError),
           emits [EvAccess MetadataPath; EvReadFile MetadataPath] w)
      end.
Proof.
  intros Hfile.
  unfold Index.loadMetadata_existing, try_catch, bind, access, readFile,
    JSON_parse, setEmojiMetadata, logger, ret, throw, emit, file.
  destruct (fs_fails env (OpAccess MetadataPath)); [reflexivity|].
  rewrite Hfile. cbn [metadata_json emits].
  destruct (fs_fails env (OpReadFile MetadataPath)); [reflexivity|].
  rewrite Hfile.
  destruct (JSON_parse_metadata env text);
    unfold Utils.setEmojiMetadata;
    rewrite ?with_store_emits, ?emits_emits; reflexivity.
Qed.

Lemma Index_loadMetadata_present env config w text :
  metadata_json w = Some text ->
  Index.loadMetadata env config w = Index.loadMetadata_existing env w.
Proof.
  intros Hfile. unfold Index.loadMetadata, bind at 1, existsSync, file.
  by rewrite Hfile.
Qed.

Ltac trace_from H :=
  unfold new_events;
  cbn [fst snd trace metadata_json metadata_cache_json emojiMetadata detached
       emits store_file with_store with_detached];
  rewrite ?H, <- ?app_assoc, ?drop_app_length, ?writes_app, ?requests_app.

(** C3, as the code has it.  With the metadata file on disk at startup,
    the bootstrap of src/index.ts sends no request and writes no file; when
    the file can be accessed and read and its text parses, it completes
    with the store holding the document parsed from the file, and
    otherwise it throws with the store as it was.  The bootstrap of the
    sibling loader sends no request when the descriptor file is missing;
    when the descriptor file is there too it runs a refresh, which sends
    exactly one request, with the validators of the descriptor on disk,
    except that it sends none when the data directory cannot be made or
    when the descriptor file holds the value null. *)
Theorem C3_warm_start env config w text :
  metadata_json w = Some text ->
  (let out := Index.apply env config w in
   requests (new_events w (snd out)) = []
   /\ writes (new_events w (snd out)) = []
   /\ (if fs_fails env (OpAccess MetadataPath)
          || fs_fails env (OpReadFile MetadataPath)
       then raises (fst out) = true
            /\ emojiMetadata (snd out) = emojiMetadata w
       else match JSON_parse_metadata env text with
            | Some metadata =>
                fst out = Ok tt /\ emojiMetadata (snd out) = Some metadata
            | None =>
                raises (fst out) = true
                /\ emojiMetadata (snd out) = emojiMetadata w
            end))
  /\ (let out := Sibling.apply env config w in
      requests (new_events w (snd out))
      = match metadata_cache_json w with
        | None => []
        | Some _ =>
            if fs_fails env OpMkdir then []
            else match descriptor_on_disk env w with
                 | Null => []
                 | Object m =>
                     [EvHttpGet (metadataUrl config) (request_headers m)]
                 end
        end).
Proof.
  intros Hfile. split.
  - cbn zeta. destruct (Index.apply env config w) as [res w'] eqn:E.
    cbn [fst snd]. revert E. unfold Index.apply, bind at 1.
    rewrite (Index_loadMetadata_present env config w text Hfile),
      (Index_loadMetadata_existing_cases env w text Hfile).
    destruct (fs_fails env (OpAccess MetadataPath)).
    { intros [= <- <-]. unfold new_events. rewrite drop_all. by repeat split. }
    destruct (fs_fails env (OpReadFile MetadataPath)).
    { intros [= <- <-]. trace_simpl. by repeat split. }
    cbn [orb].
    destruct (JSON_parse_metadata env text) as [metadata|].
    + destruct (autoUpdate config); js_run; intros [= <- <-]; trace_simpl;
        by repeat split.
    + intros [= <- <-]. trace_simpl. by repeat split.
  - cbn zeta. destruct (Sibling.apply env config w) as [res w'] eqn:E.
    cbn [fst snd]. revert E.
    unfold Sibling.apply, bind at 1, Sibling.loadMetadata, bind at 1,
      existsSync at 1, file.
    rewrite Hfile. unfold bind at 1, existsSync, file.
    destruct (metadata_cache_json w) as [described|].
    + unfold Sibling.loadMetadata_existing, bind at 1.
      destruct (Sibling_getMetadataFile_outcome env config w) as [Hout Hok].
      destruct (Sibling.getMetadataFile env config w) as [[b|e] w1];
        [|discriminate].
      destruct Hout as (evs & w0 & Hw1 & _ & _ & Htrace & Hreq & _).
      cbn [fst snd] in Hw1. subst w1. unfold refresh_requests in Hreq.
      destruct b, (autoUpdate config); js_run; intros [= <- <-];
        trace_from Htrace; rewrite Hreq, app_nil_r; reflexivity.
    + destruct (autoUpdate config); js_run; intros [= <- <-].
      * trace_simpl. reflexivity.
      * unfold new_events. by rewrite drop_all.
Qed.

Lemma C3_warm_start_witness :
  let out := Index.apply (fixture_env (HTTP.Rejected (Error "offline")) no_fault)
               fixture_config later_run in
  requests (new_events later_run (snd out)) = []
  /\ fst out = Ok tt
  /\ emojiMetadata (snd out) = Some empty_document.
Proof.
  intros out.
  destruct (C3_warm_start (fixture_env (HTTP.Rejected (Error "offline")) no_fault)
              fixture_config later_run empty_document_text eq_refl)
    as [(Hreq & _ & Hload) _].
  split; [exact Hreq|exact Hload].
Defined.

(** C3, as the specification states it, fails on the sibling loader: with both files
    on disk its bootstrap sends a request, and the store is left as it
    was. *)
Lemma C3_sibling_warm_start_requests :
  let env := fixture_env (respond 304 "Not Modified" None no_headers) no_fault in
  let out := Sibling.apply env fixture_config later_run in
  is_Some (metadata_json later_run)
  /\ fst out = Ok tt
  /\ requests (new_events later_run (snd out))
     = [EvHttpGet (metadataUrl fixture_config) []]
  /\ emojiMetadata (snd out) = None.
Proof.
  split; [by eexists|]. vm_compute. repeat split.
Qed.

(** C2, what the code does instead.  On the cold start (no metadata
    file), whenever the bootstrap of src/index.ts completes without an
    error the store is exactly as it was before: the load was called
    without [await] and is still a detached call.  On a first start, a
    query made at that point throws NotLoaded. *)
Theorem C2_cold_start_completes_before_load env config w cp :
  metadata_json w = None ->
  emojiMetadata w = Utils.initial ->
  fst (Index.apply env config w) = Ok tt ->
  let w' := snd (Index.apply env config w) in
  emojiMetadata w' = None
  /\ detached w' = detached w ++ [LoadExisting]
  /\ Utils.getEmojiData cp (emojiMetadata w') = Throw Utils.not_loaded
  /\ Utils.getSupportedEmoji (emojiMetadata w') = Throw Utils.not_loaded.
Proof.
  intros Hfile Hstore. cbn zeta.
  destruct (Index.apply env config w) as [res w'] eqn:E.
  cbn [fst snd]. revert E.
  unfold Index.apply, bind at 1, Index.loadMetadata, bind at 1,
    existsSync at 1, file.
  rewrite Hfile. cbn [negb]. unfold bind at 1, logger at 1.
  unfold Index.loadMetadata_missing, bind at 1.
  pose proof (Index_downloadMetadata_outcome env config
                (emit (EvLog Info ["元数据文件不存在，尝试下载"]) w)) as Hout.
  destruct (Index.downloadMetadata env config
              (emit (EvLog Info ["元数据文件不存在，尝试下载"]) w))
    as [[[|]|e] w1].
  - destruct Hout as (evs & w0 & Hw1 & Hst & Hdet & _ & _ & Hfiles).
    cbn [fst snd] in Hw1, Hfiles. subst w1.
    destruct (Hfiles eq_refl) as [[content Hcontent] _].
    cbn [negb]. unfold Index.loadMetadata_unawaited, existsSync, file.
    js_run. cbn [metadata_json emits]. rewrite Hcontent. cbn [negb].
    unfold spawn.
    assert (emojiMetadata w0 = None /\ detached w0 = detached w) as [Hs Hd]
      by (rewrite Hst, Hdet; cbn; by rewrite Hstore).
    destruct (autoUpdate config); intros [= <- <-] _;
      cbn [emojiMetadata detached emits with_detached emit];
      rewrite Hs, Hd; repeat split.
  - unfold throw. intros [= <- <-]. discriminate.
  - intros [= <- <-]. discriminate.
Qed.

Lemma C2_cold_start_completes_before_load_witness :
  let env := fixture_env (respond 200 "OK" (Some "<html>") no_headers) no_fault in
  let w' := snd (Index.apply env fixture_config first_run) in
  fst (Index.apply env fixture_config first_run) = Ok tt
  /\ emojiMetadata w' = None
  /\ Utils.getEmojiData (Utils.getEmojiCodepoint [0xD83D; 0xDE02]) (emojiMetadata w')
     = Throw Utils.not_loaded.
Proof.
  intros env w'. split; [reflexivity|].
  destruct (C2_cold_start_completes_before_load env fixture_config first_run
              (Utils.getEmojiCodepoint [0xD83D; 0xDE02]) eq_refl eq_refl eq_refl)
    as (H1 & _ & H3 & _).
  split; [exact H1|exact H3].
Defined.

(** The same cold start, followed to its end: the body the server sent
    is not JSON, the detached load is rejected with nobody to catch it,
    and the store is never loaded. *)
Example cold_start_never_loaded :
  let env := fixture_env (respond 200 "OK" (Some "<html>") no_headers) no_fault in
  let w' := snd (Index.apply env fixture_config first_run) in
  let w'' := settle (Index.resume env fixture_config) 3 w' in
  fst (Index.apply env fixture_config first_run) = Ok tt
  /\ detached w' = [LoadExisting]
  /\ detached w'' = []
  /\ emojiMetadata w'' = None
  /\ last (trace w'') = Some (EvUnhandledRejection (load_failed SyntaxError))
  /\ fst (Index.emoji_action (Some [0xD83D; 0xDE02; 0xD83D; 0xDC36]) w'')
     = Ok (Failed "元数据未加载").
Proof. vm_compute. repeat split. Qed.

(** With a body that parses, the store is loaded once the detached call
    has run, not when the bootstrap completes. *)
Example cold_start_loaded_later :
  let env := fixture_env (respond 200 "OK" (Some empty_document_text) no_headers)
               no_fault in
  let w' := snd (Index.apply env fixture_config first_run) in
  let w'' := settle (Index.resume env fixture_config) 3 w' in
  fst (Index.apply env fixture_config first_run) = Ok tt
  /\ emojiMetadata w' = None
  /\ emojiMetadata w'' = Some empty_document.
Proof. vm_compute. repeat split. Qed.

(** The sibling loader never assigns the store. *)
Lemma Sibling_apply_never_loads env config w :
  emojiMetadata (snd (Sibling.apply env config w)) = emojiMetadata w.
Proof.
  assert (forall w, emojiMetadata (snd (Sibling.getMetadataFile env config w))
                    = emojiMetadata w) as Hget.
  { intros w1.
    destruct (Sibling_getMetadataFile_outcome env config w1)
      as [(evs & w0 & -> & Hst & _) _]. exact Hst. }
  assert (forall w, emojiMetadata (snd (Sibling.loadMetadata_unawaited w))
                    = emojiMetadata w) as Hun.
  { intros w1. unfold Sibling.loadMetadata_unawaited, existsSync, spawn. js_run.
    destruct (file MetadataPath w1); [destruct (file CachePath w1)|];
      reflexivity. }
  unfold Sibling.apply, bind at 1.
  assert (emojiMetadata (snd (Sibling.loadMetadata env config w))
          = emojiMetadata w) as Hload.
  { unfold Sibling.loadMetadata, bind at 1, existsSync at 1.
    destruct (file MetadataPath w).
    - unfold bind at 1, existsSync. destruct (file CachePath w); [|reflexivity].
      unfold Sibling.loadMetadata_existing, bind at 1.
      specialize (Hget w).
      destruct (Sibling.getMetadataFile env config w) as [[[|]|e] w1];
        exact Hget.
    - unfold bind at 1, logger at 1, Sibling.loadMetadata_missing, bind at 1.
      specialize (Hget (emit (EvLog Info ["元数据文件不存在，尝试下载"]) w)).
      destruct (Sibling.getMetadataFile env config
                  (emit (EvLog Info ["元数据文件不存在，尝试下载"]) w))
        as [[[|]|e] w1]; cbn [negb]; try exact Hget.
      unfold bind at 1, logger at 1. rewrite Hun. exact Hget. }
  destruct (Sibling.loadMetadata env config w) as [[[]|e] w1];
    [|exact Hload].
  destruct (autoUpdate config); exact Hload.
Qed.

(** ** The lookup command *)

Lemma find_first {A} (f : A -> bool) (l : list A) :
  (exists x before after,
      List.find f l = Some x /\ l = before ++ x :: after
      /\ Forall (fun y => f y = false) before /\ f x = true)
  \/ (List.find f l = None /\ Forall (fun y => f y = false) l).
Proof.
  induction l as [|a l IH]; simpl.
  - right. split; [reflexivity|constructor].
  - destruct (f a) eqn:Ha.
    + left. exists a, [], l. repeat split; [constructor|exact Ha].
    + destruct IH as [(x & before & after & Hfind & -> & Hb & Hx)|[Hfind Hall]].
      * left. exists x, (a :: before), after.
        repeat split; [exact Hfind|by constructor|exact Hx].
      * right. split; [exact Hfind|by constructor].
Qed.

(** C8.  A lookup of two characters whose combinations list is not empty
    answers with the image of one combination of the list: the first one
    whose [isLatest] is true when there is one, the first of the list
    otherwise. *)
Theorem C8_first_latest_else_first
    (w : World) (emojis first second : jsstring)
    (metadata : EmojiMetadata) (entry : EmojiData) (combos : list Combination) :
  Array_from (trim emojis) = [first; second] ->
  emojiMetadata w = Some metadata ->
  data metadata !! Utils.getEmojiCodepoint first = Some entry ->
  combinations entry !! Utils.getEmojiCodepoint second = Some combos ->
  combos <> [] ->
  exists combo,
    fst (Index.emoji_action (Some emojis) w) = Ok (Image (gStaticUrl combo))
    /\ ((exists before after,
           combos = before ++ combo :: after
           /\ Forall (fun c => isLatest c = false) before
           /\ isLatest combo = true)
        \/ (Forall (fun c => isLatest c = false) combos
            /\ head combos = Some combo)).
Proof.
  intros Harr Hstore Hentry Hcombos Hne.
  destruct emojis as [|u rest]; [discriminate|].
  unfold Index.emoji_action. rewrite Harr.
  unfold getEmojiCodepoint, getEmojiData. js_run.
  cbn [emojiMetadata emits]. rewrite Hstore. cbn [Utils.getEmojiData]. rewrite Hentry.
  cbn [mbind option_bind]. rewrite Hcombos.
  destruct combos as [|c0 l]; [done|].
  destruct (find_first isLatest (c0 :: l))
    as [(x & before & after & Hfind & Heq & Hb & Hx)|[Hfind Hall]];
    rewrite Hfind; js_run; cbn [fst].
  - exists x. split; [reflexivity|]. left. by exists before, after.
  - exists c0. split; [reflexivity|]. right. by split.
Qed.

Lemma C8_first_latest_else_first_witness :
  exists combo,
    fst (Index.emoji_action (Some (joy ++ dog)) serving)
    = Ok (Image (gStaticUrl combo))
    /\ ((exists before after,
           joy_dog = before ++ combo :: after
           /\ Forall (fun c => isLatest c = false) before
           /\ isLatest combo = true)
        \/ (Forall (fun c => isLatest c = false) joy_dog
            /\ head joy_dog = Some combo)).
Proof.
  apply (C8_first_latest_else_first serving (joy ++ dog) joy dog
           kitchen joy_entry joy_dog);
    [reflexivity|reflexivity|reflexivity|reflexivity|discriminate].
Defined.

(** Of the two renderings marked latest, the first is served. *)
Example emoji_action_joy_dog :
  fst (Index.emoji_action (Some (joy ++ dog)) serving)
  = Ok (Image "https://www.gstatic.com/android/keyboard/emojikitchen/20230301/u1f602/u1f602_u1f436.png").
Proof. vm_compute. reflexivity. Qed.

(** C9.  A lookup whose argument, once trimmed, does not count exactly
    two code points (none, one, three or more, or no argument at all)
    answers with one of the two usage messages and leaves the world as it
    was: nothing was thrown and, the trace being unchanged, neither the
    encoder nor the store was called. *)
Theorem C9_wrong_count_is_usage_message (emojis : option jsstring) (w : World) :
  length (Array_from (trim (default [] emojis))) <> 2%nat ->
  exists reply,
    Index.emoji_action emojis w = (Ok reply, w)
    /\ (reply = Usage_missing \/ reply = Usage_exactly_two).
Proof.
  intros Hcount. unfold Index.emoji_action.
  destruct emojis as [[|u rest]|]; cbn [default from_option id] in Hcount.
  - exists Usage_missing. split; [reflexivity|by left].
  - destruct (Array_from (trim (u :: rest))) as [|a [|b [|c l]]];
      try (exists Usage_exactly_two; split; [reflexivity|by right]).
    done.
  - exists Usage_missing. split; [reflexivity|by left].
Qed.

Lemma C9_wrong_count_is_usage_message_witness :
  exists reply,
    Index.emoji_action (Some (32 :: joy ++ dog ++ joy)) first_run
    = (Ok reply, first_run)
    /\ (reply = Usage_missing \/ reply = Usage_exactly_two).
Proof.
  apply (C9_wrong_count_is_usage_message (Some (32 :: joy ++ dog ++ joy)) first_run).
  vm_compute. discriminate.
Defined.

Example emoji_action_three :
  Index.emoji_action (Some (32 :: joy ++ dog ++ joy)) first_run
  = (Ok Usage_exactly_two, first_run).
Proof. reflexivity. Qed.

Example emoji_action_blank :
  Index.emoji_action (Some [32; 32]) first_run = (Ok Usage_exactly_two, first_run).
Proof. reflexivity. Qed.

Example emoji_action_one :
  Index.emoji_action (Some joy) first_run = (Ok Usage_exactly_two, first_run).
Proof. reflexivity. Qed.

Example emoji_action_missing :
  Index.emoji_action None first_run = (Ok Usage_missing, first_run).
Proof. reflexivity. Qed.

(** ** The timer *)

(** A tick of the timer never throws: what the refresh or the reload
    throws is logged. *)
Lemma interval_callback_never_throws env config w :
  raises (fst (Index.interval_callback env config w)) = false.
Proof.
  unfold Index.interval_callback, try_catch, logger.
  match goal with
  | |- context [match ?m w with _ => _ end] => destruct (m w) as [[[]|e] w']
  end; reflexivity.
Qed.

(** * Further properties of the code *)

(** ** The encoder and the decoder on whole strings *)

Lemma code_points_Array_from (s : jsstring) :
  code_points s = code_point_of <$> Array_from s.
Proof.
  remember (length s) as n eqn:Hn. revert s Hn.
  induction (lt_wf n) as [n _ IH]. intros s ->.
  destruct s as [|u rest]; [reflexivity|].
  cbn [code_points Array_from].
  destruct (is_high_surrogate u) eqn:Hhigh.
  - destruct rest as [|l rest'].
    + unfold code_point_of, codePointAt. simpl. by rewrite Hhigh.
    + destruct (is_low_surrogate l) eqn:Hlow.
      * rewrite fmap_cons. f_equal.
        -- unfold code_point_of, codePointAt. simpl. by rewrite Hhigh, Hlow.
        -- eapply IH; [|reflexivity]. simpl. lia.
      * rewrite fmap_cons. f_equal.
        -- unfold code_point_of, codePointAt. simpl. by rewrite Hhigh.
        -- eapply IH; [|reflexivity]. simpl. lia.
  - rewrite fmap_cons. f_equal.
    + unfold code_point_of, codePointAt. simpl. by rewrite Hhigh.
    + eapply IH; [|reflexivity]. simpl. lia.
Qed.

(** X1.  The encoder on any non-empty string: cut at the hyphens, its
    result has one segment for each character [Array.from] finds in the
    string, in order, and each segment is the hexadecimal text of that
    character's code point (a lone surrogate counts as a character of its
    own); [parseInt] reads every segment back to the code point. *)
Theorem X1_getEmojiCodepoint_one_segment_per_character (s : jsstring) :
  s <> [] ->
  Forall code_unit s ->
  split 45 (Utils.getEmojiCodepoint s)
  = (fun ch => toString16 (code_point_of ch)) <$> Array_from s
  /\ parseInt16 <$> split 45 (Utils.getEmojiCodepoint s)
     = (fun ch => Some (code_point_of ch)) <$> Array_from s.
Proof.
  intros Hne Hs.
  assert (split 45 (Utils.getEmojiCodepoint s) = toString16 <$> code_points s)
    as Hsplit.
  { rewrite getEmojiCodepoint_code_points by done. apply split_join.
    - intros E. apply fmap_nil_inv in E. by apply code_points_nil in E.
    - eapply Forall_impl; [by apply toString16_code_points_lower|].
      apply lower_hex_not_hyphen. }
  rewrite Hsplit. split.
  - by rewrite code_points_Array_from, <- list_fmap_compose.
  - rewrite parseInt16_code_points by (by apply code_points_nonneg).
    by rewrite code_points_Array_from, <- list_fmap_compose.
Qed.

Lemma X1_getEmojiCodepoint_one_segment_per_character_witness :
  split 45 (Utils.getEmojiCodepoint (joy ++ [0xD83D] ++ [0x41]))
  = (fun ch => toString16 (code_point_of ch)) <$> [joy; [0xD83D]; [0x41]].
Proof.
  apply (X1_getEmojiCodepoint_one_segment_per_character (joy ++ [0xD83D] ++ [0x41])).
  - discriminate.
  - unfold code_unit. repeat constructor; lia.
Defined.

Lemma code_points_utf16_app (c : Z) (rest : jsstring) :
  is_scalar c = true ->
  code_points (utf16 c ++ rest) = c :: code_points rest.
Proof.
  unfold is_scalar, is_surrogate, utf16. intros Hc.
  apply andb_prop in Hc as [Hc Hns]. bool_to_Z.
  destruct (Z.leb_spec c 0xFFFF) as [Hle|Hgt].
  - cbn [app code_points].
    replace (is_high_surrogate c) with false; [reflexivity|].
    unfold is_high_surrogate. symmetry. apply andb_false_iff.
    rewrite !Z.leb_gt. apply andb_false_iff in Hns. rewrite !Z.leb_gt in Hns. lia.
  - destruct (utf16_pair_bounds c ltac:(lia)) as (Hh & Hl & Heq).
    cbn [app code_points]. by rewrite Hh, Hl, Heq.
Qed.

Lemma scalars_code_points (cs : list Z) :
  Forall (fun c => is_scalar c = true) cs ->
  Forall code_unit (concat (utf16 <$> cs))
  /\ code_points (concat (utf16 <$> cs)) = cs.
Proof.
  induction 1 as [|c cs Hc _ [IHu IHc]]; [split; [constructor|reflexivity]|].
  rewrite fmap_cons, concat_cons. split.
  - apply Forall_app. split; [|exact IHu]. by apply scalar_code_points.
  - rewrite code_points_utf16_app by done. by rewrite IHc.
Qed.

(** X2.  The round trip from the codepoint string: for a non-empty list
    of Unicode scalar values, the decoder applied to their hexadecimal
    texts joined by hyphens returns their UTF-16 form, and the encoder
    applied to that string returns the codepoint string again. *)
Theorem X2_getEmojiCodepoint_toPrintableEmoji (cs : list Z) :
  cs <> [] ->
  Forall (fun c => is_scalar c = true) cs ->
  Utils.toPrintableEmoji (join [45] (toString16 <$> cs))
  = Ok (concat (utf16 <$> cs))
  /\ Utils.getEmojiCodepoint (concat (utf16 <$> cs))
     = join [45] (toString16 <$> cs).
Proof.
  intros Hne Hcs.
  assert (Forall (fun c => 0 <= c <= 0x10FFFF) cs) as Hrange.
  { eapply Forall_impl; [exact Hcs|]. intros c Hc. unfold is_scalar in Hc.
    bool_to_Z. lia. }
  destruct (scalars_code_points cs Hcs) as [Hunits Hcps]. split.
  - unfold Utils.toPrintableEmoji. rewrite split_join.
    + rewrite parseInt16_code_points
        by (eapply Forall_impl; [exact Hrange|]; simpl; lia).
      by apply fromCodePoint_utf16.
    + intros E. by apply fmap_nil_inv in E.
    + apply Forall_fmap. eapply Forall_impl; [exact Hrange|].
      intros c Hc. apply lower_hex_not_hyphen, toString16_lower. simpl in Hc. lia.
  - rewrite getEmojiCodepoint_code_points by done. by rewrite Hcps.
Qed.

Lemma X2_getEmojiCodepoint_toPrintableEmoji_witness :
  Utils.toPrintableEmoji (join [45] (toString16 <$> [0x1F602; 0x1F436]))
  = Ok (concat (utf16 <$> [0x1F602; 0x1F436]))
  /\ Utils.getEmojiCodepoint (concat (utf16 <$> [0x1F602; 0x1F436]))
     = join [45] (toString16 <$> [0x1F602; 0x1F436]).
Proof.
  apply (X2_getEmojiCodepoint_toPrintableEmoji [0x1F602; 0x1F436]).
  - discriminate.
  - repeat constructor.
Defined.

(** The round trip of X2 needs scalar values: the two surrogates of
    U+1F600 written as two segments decode to the same string as 1f600,
    which encodes to one segment. *)
Example surrogate_segments_do_not_round_trip :
  Utils.toPrintableEmoji (join [45] (toString16 <$> [0xD83D; 0xDE00]))
  = Ok [0xD83D; 0xDE00]
  /\ Utils.getEmojiCodepoint [0xD83D; 0xDE00] = toString16 0x1F600.
Proof. split; reflexivity. Qed.

Lemma fromCodePoint_valid (nums : list (option Z)) :
  if forallb valid_code_point nums
  then fromCodePoint nums = Ok (concat (utf16 <$> (default 0 <$> nums)))
  else raises (fromCodePoint nums) = true.
Proof.
  induction nums as [|[n|] nums IH]; [reflexivity| |reflexivity].
  cbn [forallb valid_code_point fromCodePoint].
  destruct ((0 <=? n) && (n <=? 0x10FFFF)); [|reflexivity].
  cbn [andb]. destruct (forallb valid_code_point nums).
  - rewrite IH. by rewrite !fmap_cons, concat_cons.
  - by destruct (fromCodePoint nums).
Qed.

(** X3.  The decoder throws exactly when one of the segments between the
    hyphens is not read by [parseInt] as a number from 0 to 0x10FFFF (an
    empty segment is such a segment); otherwise it returns the UTF-16
    forms of the numbers read, one after the other. *)
Theorem X3_toPrintableEmoji_throws_on_a_bad_segment (emojiCodepoint : jsstring) :
  let nums := parseInt16 <$> split 45 emojiCodepoint in
  (if forallb valid_code_point nums
   then Utils.toPrintableEmoji emojiCodepoint
        = Ok (concat (utf16 <$> (default 0 <$> nums)))
   else raises (Utils.toPrintableEmoji emojiCodepoint) = true)
  /\ valid_code_point (parseInt16 []) = false.
Proof.
  split; [apply fromCodePoint_valid|reflexivity].
Qed.

Example toPrintableEmoji_trailing_hyphen :
  raises (Utils.toPrintableEmoji (toString16 0x1F600 ++ [45])) = true.
Proof. reflexivity. Qed.

Example toPrintableEmoji_upper_case :
  Utils.toPrintableEmoji [49; 70; 54; 48; 48] = Ok [0xD83D; 0xDE00].
Proof. reflexivity. Qed.

Example toPrintableEmoji_too_large :
  raises (Utils.toPrintableEmoji (toString16 0x110000)) = true.
Proof. reflexivity. Qed.

(** ** The store after several loads *)

Lemma foldl_store_step_queries (st : Utils.Store) (calls : list StoreCall) :
  existsb is_load calls = false -> foldl store_step st calls = st.
Proof.
  revert st. induction calls as [|c calls IH]; intros st H; [reflexivity|].
  simpl in *. apply orb_false_elim in H as [Hc H].
  rewrite IH by done. by destruct c.
Qed.

(** X4.  A load replaces the document whole: after any history of calls
    that ends with a [setEmojiMetadata] followed only by queries, a lookup
    answers from the document of that last load alone (a key it lacks is
    [undefined], whatever earlier documents held), and so does the list of
    supported emoji. *)
Theorem X4_last_load_wins
    (before after : list StoreCall) (metadata : EmojiMetadata) (cp : jsstring) :
  existsb is_load after = false ->
  let st := store_after (before ++ Call_setEmojiMetadata metadata :: after) in
  Utils.getEmojiData cp st = Ok (data metadata !! cp)
  /\ Utils.getSupportedEmoji st = Ok (knownSupportedEmoji metadata).
Proof.
  intros Hafter st.
  assert (st = Some metadata) as ->; [|split; reflexivity].
  unfold st, store_after. rewrite foldl_app. cbn [foldl store_step].
  by apply foldl_store_step_queries.
Qed.

Lemma X4_last_load_wins_witness :
  Utils.getEmojiData (Utils.getEmojiCodepoint joy)
    (store_after [Call_setEmojiMetadata kitchen;
                  Call_setEmojiMetadata empty_document;
                  Call_getSupportedEmoji])
  = Ok None.
Proof.
  apply (X4_last_load_wins [Call_setEmojiMetadata kitchen] [Call_getSupportedEmoji]
           empty_document (Utils.getEmojiCodepoint joy)).
  reflexivity.
Defined.

(** ** The refresh, case by case *)

Lemma refresh_response_emits env config evs w :
  refresh_response env config (emits evs w) = refresh_response env config w.
Proof. unfold refresh_response. by rewrite descriptor_on_disk_emits. Qed.

Ltac filter_events :=
  unfold writes, requests in *;
  repeat first
    [ progress cbn [List.filter is_write is_request app]
    | rewrite List.filter_app
    | match goal with
      | H : List.filter _ _ = _ |- _ => rewrite H
      end ];
  try reflexivity.

Ltac case_leaf :=
  js_run; rewrite ?store_file_emits, ?emits_emits;
  intros [= <- <-];
  split; [reflexivity|];
  split; [rewrite new_events_emits by reflexivity; filter_events|reflexivity].

(** What [downloadMetadata] returns, writes and leaves on disk, by what
    the disk and the server do. *)
Lemma Index_downloadMetadata_cases env config w :
  let out := Index.downloadMetadata env config w in
  let wrote := writes (new_events w (snd out)) in
  if fs_fails env OpMkdir then
    fst out = Throw (fs_error OpMkdir) /\ wrote = [] /\ disk (snd out) = disk w
  else
    match refresh_response env config w with
    | HTTP.Rejected e =>
        fst out = Throw (Index_rethrown e) /\ wrote = []
        /\ disk (snd out) = disk w
    | HTTP.Fulfilled r =>
        let body := default "" (HTTP.data r) in
        if HTTP.status r =? 304 then
          fst out = Ok false /\ wrote = [] /\ disk (snd out) = disk w
        else if no_data (HTTP.data r) then
          fst out = Throw (Error "服务器响应数据为空") /\ wrote = []
          /\ disk (snd out) = disk w
        else if fs_fails env (OpWriteFile MetadataPath) then
          fst out = Throw (fs_error (OpWriteFile MetadataPath)) /\ wrote = []
          /\ disk (snd out) = disk w
        else if fs_fails env (OpWriteFile CachePath) then
          fst out = Throw (fs_error (OpWriteFile CachePath))
          /\ wrote = [EvWriteFile MetadataPath body]
          /\ disk (snd out) = (Some body, metadata_cache_json w)
        else
          fst out = Ok true
          /\ wrote = [EvWriteFile MetadataPath body;
                      EvWriteFile CachePath (Index_descriptor env r)]
          /\ disk (snd out) = (Some body, Some (Index_descriptor env r))
    end.
Proof.
  cbn zeta. destruct (Index.downloadMetadata env config w) as [res w'] eqn:E.
  cbn [fst snd]. revert E.
  destruct (fs_fails env OpMkdir) eqn:Hmkdir.
  { unfold Index.downloadMetadata, try_catch at 1, bind at 1, mkdir.
    rewrite Hmkdir. unfold Index.on_error. fs_error_caught. case_leaf. }
  destruct (read_cacheMeta_spec env (emit EvMkdir w)) as (evs & Hread & Hw & _).
  unfold emit in Hread. rewrite descriptor_on_disk_emits in Hread.
  unfold Index.downloadMetadata, try_catch at 1, bind at 1 2 3 4, mkdir, emit.
  rewrite Hmkdir, Hread. unfold conditional_headers, refresh_response.
  destruct (descriptor_on_disk env w) as [|m].
  { js_run. unfold Index.on_error, null_descriptor. fs_error_caught. case_leaf. }
  unfold ret at 1, ctx_http_get.
  destruct (http_get env (metadataUrl config) (request_headers m) (timeout config))
    as [r|e].
  - unfold Index.on_response, Index_descriptor.
    destruct (HTTP.status r =? 304); [case_leaf|].
    destruct (no_data (HTTP.data r)).
    { js_run. unfold Index.on_error. fs_error_caught. case_leaf. }
    js_run.
    destruct (fs_fails env (OpWriteFile MetadataPath)).
    { unfold Index.on_error. fs_error_caught. case_leaf. }
    destruct (fs_fails env (OpWriteFile CachePath)).
    { unfold Index.on_error. fs_error_caught. case_leaf. }
    case_leaf.
  - unfold Index.on_error, Index_rethrown. destruct (response e) as [[st txt]|].
    + case_leaf.
    + destruct (bool_decide (code e = Some "ECONNABORTED")); case_leaf.
Qed.

(** The same for [getMetadataFile], which returns false where
    [downloadMetadata] throws. *)
Lemma Sibling_getMetadataFile_cases env config w :
  let out := Sibling.getMetadataFile env config w in
  let wrote := writes (new_events w (snd out)) in
  if fs_fails env OpMkdir then
    fst out = Ok false /\ wrote = [] /\ disk (snd out) = disk w
  else
    match refresh_response env config w with
    | HTTP.Rejected e =>
        fst out = Ok false /\ wrote = [] /\ disk (snd out) = disk w
    | HTTP.Fulfilled r =>
        let body := default "" (HTTP.data r) in
        if HTTP.status r =? 304 then
          fst out = Ok false /\ wrote = [] /\ disk (snd out) = disk w
        else if no_data (HTTP.data r) then
          fst out = Ok false /\ wrote = [] /\ disk (snd out) = disk w
        else if fs_fails env (OpWriteFile MetadataPath) then
          fst out = Ok false /\ wrote = [] /\ disk (snd out) = disk w
        else if fs_fails env (OpWriteFile CachePath) then
          fst out = Ok false
          /\ wrote = [EvWriteFile MetadataPath body]
          /\ disk (snd out) = (Some body, metadata_cache_json w)
        else
          fst out = Ok true
          /\ wrote = [EvWriteFile MetadataPath body;
                      EvWriteFile CachePath (Sibling_descriptor env r)]
          /\ disk (snd out) = (Some body, Some (Sibling_descriptor env r))
    end.
Proof.
  cbn zeta. destruct (Sibling.getMetadataFile env config w) as [res w'] eqn:E.
  cbn [fst snd]. revert E.
  destruct (fs_fails env OpMkdir) eqn:Hmkdir.
  { unfold Sibling.getMetadataFile, try_catch at 1, bind at 1, mkdir.
    rewrite Hmkdir. unfold Sibling.on_error. fs_error_caught. case_leaf. }
  destruct (read_cacheMeta_spec env (emit EvMkdir w)) as (evs & Hread & Hw & _).
  unfold emit in Hread. rewrite descriptor_on_disk_emits in Hread.
  unfold Sibling.getMetadataFile, try_catch at 1, bind at 1 2 3 4, mkdir, emit.
  rewrite Hmkdir, Hread. unfold conditional_headers, refresh_response.
  destruct (descriptor_on_disk env w) as [|m].
  { js_run. unfold Sibling.on_error, null_descriptor. fs_error_caught. case_leaf. }
  unfold ret at 1, ctx_http_get.
  destruct (http_get env (metadataUrl config) (request_headers m) (timeout config))
    as [r|e].
  - unfold Sibling.on_response, Sibling_descriptor.
    destruct (HTTP.status r =? 304); [case_leaf|].
    destruct (no_data (HTTP.data r)); [case_leaf|].
    js_run.
    destruct (fs_fails env (OpWriteFile MetadataPath)).
    { unfold Sibling.on_error. fs_error_caught. case_leaf. }
    destruct (fs_fails env (OpWriteFile CachePath)).
    { unfold Sibling.on_error. fs_error_caught. case_leaf. }
    case_leaf.
  - unfold Sibling.on_error. destruct (response e) as [[st txt]|].
    + case_leaf.
    + destruct (bool_decide (code e = Some "ECONNABORTED")); case_leaf.
Qed.

Lemma descriptor_on_disk_eq env w :
  descriptor_on_disk env w
  = default (Object {| etag := None; lastModified := None |})
      (if fs_fails env (OpReadFile CachePath) then None
       else metadata_cache_json w ≫= JSON_parse_cache env).
Proof.
  unfold descriptor_on_disk, Index.read_cacheMeta, try_catch, bind, readFile,
    JSON_parse, ret, throw, emit, file.
  destruct (fs_fails env (OpReadFile CachePath)); [reflexivity|].
  destruct (metadata_cache_json w) as [text|]; [|reflexivity].
  cbn [mbind option_bind]. by destruct (JSON_parse_cache env text).
Qed.

Lemma refresh_outcome_requests env config w out :
  refresh_outcome env config w out ->
  requests (new_events w (snd out)) = refresh_requests env config w
  /\ emojiMetadata (snd out) = emojiMetadata w
  /\ detached (snd out) = detached w.
Proof.
  intros (evs & w0 & -> & Hst & Hdet & Htrace & Hreq & _).
  rewrite new_events_emits by done. by repeat split.
Qed.

(** ** The request of a refresh *)

(** X5.  What a refresh, of either loader, sends once the directory is
    there depends on the descriptor file alone.  When the file parses to
    a value other than null, the one request carries its validators:
    If-None-Match with the etag when that is not empty, then
    If-Modified-Since with the lastModified when that is not empty.  When
    the file is missing, cannot be read or is not JSON, the one request
    carries no header.  When the file holds the value null, reading its
    etag throws before any request is sent: [downloadMetadata] throws that
    TypeError and [getMetadataFile] returns false. *)
Theorem X5_request_carries_the_validators_on_disk env config w :
  fs_fails env OpMkdir = false ->
  let parsed :=
    if fs_fails env (OpReadFile CachePath) then None
    else metadata_cache_json w ≫= JSON_parse_cache env in
  let index := Index.downloadMetadata env config w in
  let sibling := Sibling.getMetadataFile env config w in
  let sent (hdrs : list (string * string)) :=
    requests (new_events w (snd index)) = [EvHttpGet (metadataUrl config) hdrs]
    /\ requests (new_events w (snd sibling))
       = [EvHttpGet (metadataUrl config) hdrs] in
  match parsed with
  | Some Null =>
      requests (new_events w (snd index)) = []
      /\ requests (new_events w (snd sibling)) = []
      /\ fst index = Throw null_descriptor
      /\ fst sibling = Ok false
  | Some (Object m) =>
      sent ((if truthy (etag m)
             then [("If-None-Match", default "" (etag m))] else [])
            ++ (if truthy (lastModified m)
                then [("If-Modified-Since", default "" (lastModified m))] else []))
  | None => sent []
  end.
Proof.
  intros Hmkdir parsed index sibling sent.
  destruct (refresh_outcome_requests env config w _
              (Index_downloadMetadata_outcome env config w)) as [H1 _].
  destruct (refresh_outcome_requests env config w _
              (proj1 (Sibling_getMetadataFile_outcome env config w))) as [H2 _].
  pose proof (Index_downloadMetadata_cases env config w) as C1.
  pose proof (Sibling_getMetadataFile_cases env config w) as C2.
  cbn zeta in C1, C2.
  unfold refresh_requests in H1, H2. unfold refresh_response in C1, C2.
  rewrite Hmkdir, descriptor_on_disk_eq in H1, H2, C1, C2.
  fold parsed in H1, H2, C1, C2. fold index in H1, C1. fold sibling in H2, C2.
  destruct parsed as [[|m]|]; cbn [default from_option id] in H1, H2, C1, C2.
  - destruct C1 as (C1 & _). destruct C2 as (C2 & _). by repeat split.
  - by split.
  - by split.
Qed.

Lemma X5_request_carries_the_validators_on_disk_witness :
  requests (new_events corrupt_run
              (snd (Index.downloadMetadata
                      (tagged_env (respond 304 "Not Modified" None no_headers))
                      fixture_config corrupt_run)))
  = [EvHttpGet (metadataUrl fixture_config) []].
Proof.
  destruct (X5_request_carries_the_validators_on_disk
              (tagged_env (respond 304 "Not Modified" None no_headers))
              fixture_config corrupt_run eq_refl) as [H _].
  exact H.
Defined.

(** A descriptor file that holds null: nothing is asked of the server,
    which would have answered; src/index.ts throws and the sibling loader
    returns false. *)
Example refresh_with_null_descriptor :
  let env := tagged_env (respond 304 "Not Modified" None no_headers) in
  let index := Index.downloadMetadata env fixture_config null_run in
  let sibling := Sibling.getMetadataFile env fixture_config null_run in
  fst index = Throw null_descriptor
  /\ fst sibling = Ok false
  /\ requests (new_events null_run (snd index)) = []
  /\ requests (new_events null_run (snd sibling)) = [].
Proof. vm_compute. repeat split. Qed.

(** X7.  When the request of a refresh is rejected, [downloadMetadata]
    writes neither file and throws: an error naming the status when the
    rejection carries a response, the timeout error when it carries the
    code ECONNABORTED and no response, and the rejection itself
    otherwise. *)
Theorem X7_downloadMetadata_rejected_request env config w e :
  fs_fails env OpMkdir = false ->
  refresh_response env config w = HTTP.Rejected e ->
  let out := Index.downloadMetadata env config w in
  leaves_disk_alone w (snd out)
  /\ match response e with
     | Some (st, _) => fst out = Throw (Error ("服务器响应异常: " +:+ toString10 st))
     | None =>
         if bool_decide (code e = Some "ECONNABORTED")
         then fst out = Throw (Error "下载超时")
         else fst out = Throw e
     end.
Proof.
  intros Hmkdir Hresp out.
  pose proof (Index_downloadMetadata_cases env config w) as H.
  cbn zeta in H. rewrite Hmkdir, Hresp in H. destruct H as (Hres & Hw & Hdisk).
  fold out in Hres, Hw, Hdisk. split.
  - unfold leaves_disk_alone. unfold disk in Hdisk. injection Hdisk as -> ->.
    by rewrite Hw.
  - rewrite Hres. unfold Index_rethrown.
    destruct (response e) as [[st txt]|]; [reflexivity|].
    by destruct (bool_decide (code e = Some "ECONNABORTED")).
Qed.

Lemma X7_downloadMetadata_rejected_request_witness :
  fst (Index.downloadMetadata
         (fixture_env
            (HTTP.Rejected {| response := Some (503, "Service Unavailable");
                              code := None; message := "HTTP 503" |})
            no_fault)
         fixture_config later_run)
  = Throw (Error ("服务器响应异常: " +:+ toString10 503)).
Proof.
  apply (X7_downloadMetadata_rejected_request
           (fixture_env
              (HTTP.Rejected {| response := Some (503, "Service Unavailable");
                                code := None; message := "HTTP 503" |})
              no_fault)
           fixture_config later_run _ eq_refl eq_refl).
Defined.

(** X8.  [getMetadataFile] never throws: when the directory cannot be
    made, when the request is rejected and when a file cannot be written,
    it returns false. *)
Theorem X8_getMetadataFile_swallows_failures env config w :
  fs_fails env OpMkdir = true
  \/ (exists e, refresh_response env config w = HTTP.Rejected e)
  \/ fs_fails env (OpWriteFile MetadataPath) = true
  \/ fs_fails env (OpWriteFile CachePath) = true ->
  fst (Sibling.getMetadataFile env config w) = Ok false
  /\ forall env' config' w',
       raises (fst (Sibling.getMetadataFile env' config' w')) = false.
Proof.
  intros Hfail. split; [|intros; apply Sibling_getMetadataFile_outcome].
  pose proof (Sibling_getMetadataFile_cases env config w) as H. cbn zeta in H.
  destruct (fs_fails env OpMkdir); [tauto|].
  destruct (refresh_response env config w) as [r|e]; [|tauto].
  destruct (HTTP.status r =? 304); [tauto|].
  destruct (no_data (HTTP.data r)); [tauto|].
  destruct (fs_fails env (OpWriteFile MetadataPath)); [tauto|].
  destruct (fs_fails env (OpWriteFile CachePath)); [tauto|].
  destruct Hfail as [?|[[? ?]|[?|?]]]; discriminate.
Qed.

Lemma X8_getMetadataFile_swallows_failures_witness :
  fst (Sibling.getMetadataFile
         (fixture_env (HTTP.Rejected (Error "getaddrinfo ENOTFOUND")) no_fault)
         fixture_config first_run)
  = Ok false.
Proof.
  apply (X8_getMetadataFile_swallows_failures
           (fixture_env (HTTP.Rejected (Error "getaddrinfo ENOTFOUND")) no_fault)
           fixture_config first_run).
  right. left. by eexists.
Defined.

(** X9.  [downloadMetadata] returns false, the NotModified outcome, in
    one case only: the directory is there and the server answers 304.
    Every other refresh that does not update throws. *)
Theorem X9_downloadMetadata_false_is_304 env config w :
  fst (Index.downloadMetadata env config w) = Ok false
  <-> fs_fails env OpMkdir = false
      /\ exists r, refresh_response env config w = HTTP.Fulfilled r
                   /\ HTTP.status r = 304.
Proof.
  pose proof (Index_downloadMetadata_cases env config w) as H. cbn zeta in H.
  destruct (fs_fails env OpMkdir).
  { destruct H as (-> & _). split; [discriminate|]. intros [? _]. discriminate. }
  destruct (refresh_response env config w) as [r|e].
  - destruct (Z.eqb_spec (HTTP.status r) 304) as [H304|H304].
    + destruct H as (-> & _). split; [|done]. intros _. split; [done|]. by exists r.
    + assert (fst (Index.downloadMetadata env config w) <> Ok false) as Hne.
      { destruct (no_data (HTTP.data r)); [by destruct H as (-> & _)|].
        destruct (fs_fails env (OpWriteFile MetadataPath));
          [by destruct H as (-> & _)|].
        destruct (fs_fails env (OpWriteFile CachePath));
          by destruct H as (-> & _). }
      split; [done|]. intros (_ & r' & [= <-] & ?). done.
  - destruct H as (-> & _). split; [discriminate|].
    intros (_ & r & ? & _). discriminate.
Qed.

(** X10.  The descriptor file is written by the refreshes that return
    true and by no other: a refresh of either loader returns true exactly
    when its disk writes are the metadata file and then the descriptor
    file, and otherwise leaves the descriptor file as it was. *)
Theorem X10_descriptor_written_only_when_updated env config w :
  let both (out : Result bool * World) :=
    (fst out = Ok true
     <-> exists body d,
           writes (new_events w (snd out))
           = [EvWriteFile MetadataPath body; EvWriteFile CachePath d])
    /\ (fst out = Ok true
        \/ metadata_cache_json (snd out) = metadata_cache_json w) in
  both (Index.downloadMetadata env config w)
  /\ both (Sibling.getMetadataFile env config w).
Proof.
  cbn zeta. split.
  - pose proof (Index_downloadMetadata_cases env config w) as H. cbn zeta in H.
    repeat match type of H with
           | if ?b then _ else _ => destruct b
           | match ?o with _ => _ end => destruct o
           end;
      destruct H as (-> & -> & [= _ ->]);
      (split; [split; [try discriminate; eauto|intros (? & ? & ?); done]
              |first [by left|by right]]).
  - pose proof (Sibling_getMetadataFile_cases env config w) as H. cbn zeta in H.
    repeat match type of H with
           | if ?b then _ else _ => destruct b
           | match ?o with _ => _ end => destruct o
           end;
      destruct H as (-> & -> & [= _ ->]);
      (split; [split; [try discriminate; eauto|intros (? & ? & ?); done]
              |first [by left|by right]]).
Qed.

(** A refresh that updates, with everything it leaves behind. *)
Lemma Index_downloadMetadata_updated env config w r :
  fs_fails env OpMkdir = false ->
  fs_fails env (OpWriteFile MetadataPath) = false ->
  fs_fails env (OpWriteFile CachePath) = false ->
  refresh_response env config w = HTTP.Fulfilled r ->
  HTTP.status r <> 304 ->
  no_data (HTTP.data r) = false ->
  exists evs w0,
    Index.downloadMetadata env config w = (Ok true, emits evs w0)
    /\ metadata_json w0 = Some (default "" (HTTP.data r))
    /\ metadata_cache_json w0 = Some (Index_descriptor env r)
    /\ emojiMetadata w0 = emojiMetadata w
    /\ detached w0 = detached w
    /\ trace w0 = trace w
    /\ requests evs = refresh_requests env config w.
Proof.
  intros Hmkdir Hwm Hwc Hresp H304 Hdata.
  pose proof (Index_downloadMetadata_cases env config w) as H. cbn zeta in H.
  rewrite Hmkdir, Hresp, (proj2 (Z.eqb_neq _ _) H304), Hdata, Hwm, Hwc in H.
  destruct H as (Hres & _ & Hdisk).
  destruct (Index_downloadMetadata_outcome env config w)
    as (evs & w0 & Hsnd & Hst & Hdet & Htrace & Hreq & _).
  exists evs, w0.
  rewrite Hsnd in Hdisk. unfold disk in Hdisk. cbn [metadata_json
    metadata_cache_json emits] in Hdisk. injection Hdisk as Hm Hc.
  repeat split; try done.
  rewrite (surjective_pairing (Index.downloadMetadata env config w)).
  by rewrite Hres, Hsnd.
Qed.

Lemma Sibling_getMetadataFile_updated env config w r :
  fs_fails env OpMkdir = false ->
  fs_fails env (OpWriteFile MetadataPath) = false ->
  fs_fails env (OpWriteFile CachePath) = false ->
  refresh_response env config w = HTTP.Fulfilled r ->
  HTTP.status r <> 304 ->
  no_data (HTTP.data r) = false ->
  exists evs w0,
    Sibling.getMetadataFile env config w = (Ok true, emits evs w0)
    /\ metadata_json w0 = Some (default "" (HTTP.data r))
    /\ metadata_cache_json w0 = Some (Sibling_descriptor env r)
    /\ emojiMetadata w0 = emojiMetadata w
    /\ detached w0 = detached w
    /\ trace w0 = trace w
    /\ requests evs = refresh_requests env config w.
Proof.
  intros Hmkdir Hwm Hwc Hresp H304 Hdata.
  pose proof (Sibling_getMetadataFile_cases env config w) as H. cbn zeta in H.
  rewrite Hmkdir, Hresp, (proj2 (Z.eqb_neq _ _) H304), Hdata, Hwm, Hwc in H.
  destruct H as (Hres & _ & Hdisk).
  destruct (Sibling_getMetadataFile_outcome env config w)
    as [(evs & w0 & Hsnd & Hst & Hdet & Htrace & Hreq & _) _].
  exists evs, w0.
  rewrite Hsnd in Hdisk. unfold disk in Hdisk. cbn [metadata_json
    metadata_cache_json emits] in Hdisk. injection Hdisk as Hm Hc.
  repeat split; try done.
  rewrite (surjective_pairing (Sibling.getMetadataFile env config w)).
  by rewrite Hres, Hsnd.
Qed.

(** X6.  Revalidation after an update: when a refresh has updated both
    files and the descriptor it wrote reads back as it was written, the
    next refresh sends the validators of the response that was stored:
    its etag as If-None-Match and its last-modified as If-Modified-Since
    (each when not empty), read from the headers the way the loader reads
    them. *)
Theorem X6_next_refresh_revalidates env config w r :
  (forall op, fs_fails env op = false) ->
  refresh_response env config w = HTTP.Fulfilled r ->
  HTTP.status r <> 304 ->
  no_data (HTTP.data r) = false ->
  let stored :=
    {| etag := HTTP.property (HTTP.headers r) "etag";
       lastModified := HTTP.property (HTTP.headers r) "last-modified" |} in
  let stored' :=
    {| etag := HTTP.get (HTTP.headers r) "etag";
       lastModified := HTTP.get (HTTP.headers r) "last-modified" |} in
  JSON_parse_cache env (JSON_stringify_cache env stored) = Some (Object stored) ->
  JSON_parse_cache env (JSON_stringify_cache env stored') = Some (Object stored') ->
  (let w' := snd (Index.downloadMetadata env config w) in
   requests (new_events w' (snd (Index.downloadMetadata env config w')))
   = [EvHttpGet (metadataUrl config) (request_headers stored)])
  /\ (let w' := snd (Sibling.getMetadataFile env config w) in
      requests (new_events w' (snd (Sibling.getMetadataFile env config w')))
      = [EvHttpGet (metadataUrl config) (request_headers stored')]).
Proof.
  intros Hok Hresp H304 Hdata stored stored' Hback Hback'. cbn zeta. split.
  - destruct (Index_downloadMetadata_updated env config w r
                (Hok _) (Hok _) (Hok _) Hresp H304 Hdata)
      as (evs & w0 & -> & _ & Hc & _).
    cbn [snd].
    destruct (refresh_outcome_requests env config (emits evs w0) _
                (Index_downloadMetadata_outcome env config (emits evs w0)))
      as [-> _].
    unfold refresh_requests.
    rewrite (Hok OpMkdir), descriptor_on_disk_eq, (Hok (OpReadFile CachePath)).
    cbn [metadata_cache_json emits]. rewrite Hc. cbn [mbind option_bind].
    unfold Index_descriptor. fold stored. by rewrite Hback.
  - destruct (Sibling_getMetadataFile_updated env config w r
                (Hok _) (Hok _) (Hok _) Hresp H304 Hdata)
      as (evs & w0 & -> & _ & Hc & _).
    cbn [snd].
    destruct (refresh_outcome_requests env config (emits evs w0) _
                (proj1 (Sibling_getMetadataFile_outcome env config (emits evs w0))))
      as [-> _].
    unfold refresh_requests.
    rewrite (Hok OpMkdir), descriptor_on_disk_eq, (Hok (OpReadFile CachePath)).
    cbn [metadata_cache_json emits]. rewrite Hc. cbn [mbind option_bind].
    unfold Sibling_descriptor. fold stored'. by rewrite Hback'.
Qed.

Lemma X6_next_refresh_revalidates_witness :
  let env := tagged_env (respond 200 "OK" (Some empty_document_text)
                           (tagged_headers "v1")) in
  let w' := snd (Index.downloadMetadata env fixture_config first_run) in
  requests (new_events w' (snd (Index.downloadMetadata env fixture_config w')))
  = [EvHttpGet (metadataUrl fixture_config) [("If-None-Match", "v1")]].
Proof.
  intros env w'.
  apply (X6_next_refresh_revalidates env fixture_config first_run _
           (fun _ => eq_refl) eq_refl ltac:(discriminate) eq_refl eq_refl eq_refl).
Defined.

(** ** The bootstrap without a metadata file *)

Lemma Index_downloadMetadata_fst_emits env config evs w :
  fst (Index.downloadMetadata env config (emits evs w))
  = fst (Index.downloadMetadata env config w).
Proof.
  pose proof (Index_downloadMetadata_cases env config w) as H1.
  pose proof (Index_downloadMetadata_cases env config (emits evs w)) as H2.
  cbn zeta in H1, H2. rewrite refresh_response_emits in H2.
  repeat match type of H1 with
         | if ?b then _ else _ => destruct b
         | match ?o with _ => _ end => destruct o
         end;
    destruct H1 as (-> & _); by destruct H2 as (-> & _).
Qed.

(** X11.  The bootstrap of src/index.ts without a metadata file succeeds
    or fails with its download: it completes when the download returns
    true, throws the download-failed error when the download returns false
    (the server answered 304), and throws the error of the download when
    that throws.  When it fails the store is as it was and no load is left
    detached. *)
Theorem X11_cold_start_follows_the_download env config w :
  metadata_json w = None ->
  let out := Index.apply env config w in
  fst out
  = match fst (Index.downloadMetadata env config w) with
    | Ok true => Ok tt
    | Ok false => Throw (Error "元数据文件下载失败")
    | Throw e => Throw e
    end
  /\ (fst out <> Ok tt ->
      emojiMetadata (snd out) = emojiMetadata w
      /\ detached (snd out) = detached w).
Proof.
  intros Hfile. cbn zeta.
  destruct (Index.apply env config w) as [res w'] eqn:E.
  cbn [fst snd]. revert E.
  unfold Index.apply, bind at 1, Index.loadMetadata, bind at 1,
    existsSync at 1, file.
  rewrite Hfile. cbn [negb]. unfold bind at 1, logger at 1.
  unfold Index.loadMetadata_missing, bind at 1.
  rewrite <- (Index_downloadMetadata_fst_emits env config
                [EvLog Info ["元数据文件不存在，尝试下载"]] w).
  fold (emit (EvLog Info ["元数据文件不存在，尝试下载"]) w).
  pose proof (Index_downloadMetadata_outcome env config
                (emit (EvLog Info ["元数据文件不存在，尝试下载"]) w)) as Hout.
  destruct (Index.downloadMetadata env config
              (emit (EvLog Info ["元数据文件不存在，尝试下载"]) w))
    as [[[|]|e] w1];
    destruct Hout as (evs & w0 & Hw1 & Hst & Hdet & _ & _ & Hfiles);
    cbn [fst snd] in Hw1, Hfiles |- *; subst w1.
  - destruct (Hfiles eq_refl) as [[content Hcontent] _].
    cbn [negb]. unfold Index.loadMetadata_unawaited, existsSync, file.
    js_run. cbn [metadata_json emits]. rewrite Hcontent. cbn [negb].
    unfold spawn.
    destruct (autoUpdate config); intros [= <- <-]; by split.
  - unfold throw. intros [= <- <-]. split; [reflexivity|]. intros _.
    cbn [emojiMetadata detached emits]. by rewrite Hst, Hdet.
  - intros [= <- <-]. split; [reflexivity|]. intros _.
    cbn [emojiMetadata detached emits]. by rewrite Hst, Hdet.
Qed.

Lemma X11_cold_start_follows_the_download_witness :
  fst (Index.apply (fixture_env (respond 304 "Not Modified" None no_headers) no_fault)
         fixture_config first_run)
  = Throw (Error "元数据文件下载失败").
Proof.
  apply (X11_cold_start_follows_the_download
           (fixture_env (respond 304 "Not Modified" None no_headers) no_fault)
           fixture_config first_run eq_refl).
Defined.

(** The bootstrap without a metadata file, when the download updates. *)
Lemma Index_apply_cold_updated env config w r :
  metadata_json w = None ->
  fs_fails env OpMkdir = false ->
  fs_fails env (OpWriteFile MetadataPath) = false ->
  fs_fails env (OpWriteFile CachePath) = false ->
  refresh_response env config w = HTTP.Fulfilled r ->
  HTTP.status r <> 304 ->
  no_data (HTTP.data r) = false ->
  exists w',
    Index.apply env config w = (Ok tt, w')
    /\ detached w' = detached w ++ [LoadExisting]
    /\ metadata_json w' = Some (default "" (HTTP.data r))
    /\ metadata_cache_json w' = Some (Index_descriptor env r)
    /\ emojiMetadata w' = emojiMetadata w.
Proof.
  intros Hfile Hmkdir Hwm Hwc Hresp H304 Hdata.
  destruct (Index_downloadMetadata_updated env config
              (emit (EvLog Info ["元数据文件不存在，尝试下载"]) w) r
              Hmkdir Hwm Hwc) as (evs & w0 & Hdl & Hm & Hc & Hst & Hdet & _);
    [by (unfold emit; rewrite refresh_response_emits)|done|done|].
  unfold Index.apply, bind at 1, Index.loadMetadata, bind at 1,
    existsSync at 1, file.
  rewrite Hfile. cbn [negb]. unfold bind at 1, logger at 1.
  unfold Index.loadMetadata_missing, bind at 1. rewrite Hdl. cbn [negb].
  unfold Index.loadMetadata_unawaited, existsSync, file, spawn. js_run.
  cbn [metadata_json detached emits]. rewrite Hm. cbn [negb].
  destruct (autoUpdate config); eexists; (split; [reflexivity|]);
    cbn [metadata_json metadata_cache_json emojiMetadata detached emits
         with_detached];
    by rewrite Hdet, Hst.
Qed.

(** X13.  The cold start that works: with no metadata file, a server
    that answers with a body and a disk without faults, the bootstrap of
    src/index.ts completes with one load left detached; when the event
    loop runs that call it reads the file just written, sends no request
    and writes nothing, and the store then holds the document parsed from
    the body; if the body does not parse the store stays as it was. *)
Theorem X13_cold_start_loads_when_the_detached_call_runs env config w r :
  metadata_json w = None ->
  detached w = [] ->
  (forall op, fs_fails env op = false) ->
  refresh_response env config w = HTTP.Fulfilled r ->
  HTTP.status r <> 304 ->
  no_data (HTTP.data r) = false ->
  let w' := snd (Index.apply env config w) in
  let w'' := run_detached (Index.resume env config) w' in
  fst (Index.apply env config w) = Ok tt
  /\ detached w' = [LoadExisting]
  /\ detached w'' = []
  /\ requests (new_events w' w'') = []
  /\ writes (new_events w' w'') = []
  /\ emojiMetadata w''
     = match JSON_parse_metadata env (default "" (HTTP.data r)) with
       | Some metadata => Some metadata
       | None => emojiMetadata w
       end.
Proof.
  intros Hfile Hnone Hok Hresp H304 Hdata. cbn zeta.
  destruct (Index_apply_cold_updated env config w r Hfile
              (Hok _) (Hok _) (Hok _) Hresp H304 Hdata)
    as (w' & -> & Hdet & Hm & _ & Hst).
  cbn [fst snd]. rewrite Hnone in Hdet. cbn [app] in Hdet.
  split; [reflexivity|]. split; [exact Hdet|].
  unfold run_detached. rewrite Hdet. cbn [Index.resume].
  rewrite (Index_loadMetadata_existing_cases env (with_detached [] w')
             (default "" (HTTP.data r)) Hm).
  rewrite !Hok.
  destruct (JSON_parse_metadata env (default "" (HTTP.data r))) as [metadata|].
  - split; [reflexivity|]. rewrite new_events_emits by reflexivity. by repeat split.
  - unfold emit. rewrite emits_emits. split; [reflexivity|].
    rewrite new_events_emits by reflexivity. by repeat split.
Qed.

Lemma X13_cold_start_loads_when_the_detached_call_runs_witness :
  let env := fixture_env (respond 200 "OK" (Some empty_document_text) no_headers)
               no_fault in
  let w' := snd (Index.apply env fixture_config first_run) in
  emojiMetadata (run_detached (Index.resume env fixture_config) w')
  = Some empty_document.
Proof.
  intros env w'.
  apply (X13_cold_start_loads_when_the_detached_call_runs env fixture_config
           first_run _ eq_refl eq_refl (fun _ => eq_refl) eq_refl
           ltac:(discriminate) eq_refl).
Defined.

(** ** The timer and the update command of src/index.ts *)

(** X14.  A tick of the timer never throws, and it keeps the store in
    step with the disk: after the tick the store is as it was before, or
    it holds the document parsed from the metadata file that is then on
    disk. *)
Theorem X14_tick_keeps_store_in_step_with_disk env config w :
  let out := Index.interval_callback env config w in
  raises (fst out) = false
  /\ (emojiMetadata (snd out) = emojiMetadata w
      \/ exists text metadata,
           metadata_json (snd out) = Some text
           /\ JSON_parse_metadata env text = Some metadata
           /\ emojiMetadata (snd out) = Some metadata).
Proof.
  cbn zeta.
  destruct (Index.interval_callback env config w) as [res w'] eqn:E.
  cbn [fst snd]. revert E.
  unfold Index.interval_callback, try_catch, bind at 1.
  pose proof (Index_downloadMetadata_outcome env config w) as Hout.
  destruct (Index.downloadMetadata env config w) as [[[|]|e] w1];
    destruct Hout as (evs & w0 & Hw1 & Hst & _ & _ & _ & Hfiles);
    cbn [fst snd] in Hw1, Hfiles; subst w1.
  - destruct (Hfiles eq_refl) as [[text Htext] _].
    rewrite (Index_loadMetadata_present env config (emits evs w0) text Htext),
      (Index_loadMetadata_existing_cases env (emits evs w0) text Htext).
    destruct (fs_fails env (OpAccess MetadataPath));
      [js_run; intros [= <- <-]; split; [reflexivity|by left]|].
    destruct (fs_fails env (OpReadFile MetadataPath));
      [js_run; intros [= <- <-]; split; [reflexivity|by left]|].
    destruct (JSON_parse_metadata env text) as [metadata|] eqn:Hparse.
    + intros [= <- <-]. split; [reflexivity|]. right. by exists text, metadata.
    + js_run. intros [= <- <-]. split; [reflexivity|by left].
  - js_run. intros [= <- <-]. split; [reflexivity|by left].
  - js_run. intros [= <- <-]. split; [reflexivity|by left].
Qed.

(** Refresh, then reload: what the timer and the update command share. *)
Lemma Index_refresh_then_reload env config w r :
  (forall op, fs_fails env op = false) ->
  refresh_response env config w = HTTP.Fulfilled r ->
  HTTP.status r <> 304 ->
  no_data (HTTP.data r) = false ->
  exists w1,
    Index.downloadMetadata env config w = (Ok true, w1)
    /\ disk w1 = (Some (default "" (HTTP.data r)), Some (Index_descriptor env r))
    /\ emojiMetadata w1 = emojiMetadata w
    /\ match JSON_parse_metadata env (default "" (HTTP.data r)) with
       | Some metadata =>
           exists evs, Index.loadMetadata env config w1
                       = (Ok tt, emits evs (with_store (Some metadata) w1))
       | None =>
           exists evs, Index.loadMetadata env config w1
                       = (Throw (load_failed SyntaxError), emits evs w1)
       end.
Proof.
  intros Hok Hresp H304 Hdata.
  destruct (Index_downloadMetadata_updated env config w r
              (Hok _) (Hok _) (Hok _) Hresp H304 Hdata)
    as (evs & w0 & Hdl & Hm & Hc & Hst & _).
  exists (emits evs w0). split; [exact Hdl|].
  split; [unfold disk; cbn [metadata_json metadata_cache_json emits];
          by rewrite Hm, Hc|].
  split; [exact Hst|].
  rewrite (Index_loadMetadata_present env config (emits evs w0) _ Hm),
    (Index_loadMetadata_existing_cases env (emits evs w0) _ Hm), !Hok.
  destruct (JSON_parse_metadata env (default "" (HTTP.data r))); by eexists.
Qed.

(** X15.  A tick of the timer that finds a new body: on a disk without
    faults, when the server answers the refresh with a status other than
    304 and a body that is not empty, the tick leaves the body in the
    metadata file and the new descriptor in the descriptor file, and the
    store holds the document parsed from the body; when the body does not
    parse the tick still does not throw, the files are replaced all the
    same, and the store keeps the document it had. *)
Theorem X15_tick_reloads_the_new_body env config w r :
  (forall op, fs_fails env op = false) ->
  refresh_response env config w = HTTP.Fulfilled r ->
  HTTP.status r <> 304 ->
  no_data (HTTP.data r) = false ->
  let out := Index.interval_callback env config w in
  fst out = Ok tt
  /\ disk (snd out) = (Some (default "" (HTTP.data r)), Some (Index_descriptor env r))
  /\ emojiMetadata (snd out)
     = match JSON_parse_metadata env (default "" (HTTP.data r)) with
       | Some metadata => Some metadata
       | None => emojiMetadata w
       end.
Proof.
  intros Hok Hresp H304 Hdata. cbn zeta.
  destruct (Index_refresh_then_reload env config w r Hok Hresp H304 Hdata)
    as (w1 & Hdl & Hdisk & Hst & Hload).
  destruct (Index.interval_callback env config w) as [res w'] eqn:E.
  cbn [fst snd]. revert E.
  unfold Index.interval_callback, try_catch, bind at 1. rewrite Hdl.
  unfold disk in *.
  destruct (JSON_parse_metadata env (default "" (HTTP.data r)));
    destruct Hload as [evs ->]; js_run; intros [= <- <-];
    cbn [metadata_json metadata_cache_json emojiMetadata emits with_store];
    by repeat split.
Qed.

Lemma X15_tick_reloads_the_new_body_witness :
  let env := fixture_env (respond 200 "OK" (Some "<html>") no_headers) no_fault in
  let out := Index.interval_callback env fixture_config serving in
  fst out = Ok tt
  /\ metadata_json (snd out) = Some "<html>"
  /\ emojiMetadata (snd out) = Some kitchen.
Proof.
  intros env out.
  destruct (X15_tick_reloads_the_new_body env fixture_config serving _
              (fun _ => eq_refl) eq_refl ltac:(discriminate) eq_refl)
    as (H1 & H2 & H3).
  split; [exact H1|]. split; [exact (f_equal fst H2)|exact H3].
Defined.

(** X16.  The update command, on a disk without faults and a server that
    answers: on 304 it replies that nothing changed; on an empty body it
    throws the error of the refresh; on a new body it replies that the
    metadata was updated when the body parses, and throws the load error
    when it does not.  The store changes in the one case of a body that
    parses, to the document parsed from it. *)
Theorem X16_update_command env config w r :
  (forall op, fs_fails env op = false) ->
  refresh_response env config w = HTTP.Fulfilled r ->
  let out := Index.update_action env config w in
  let parsed := JSON_parse_metadata env (default "" (HTTP.data r)) in
  fst out
  = (if HTTP.status r =? 304 then Ok Unchanged_reply
     else if no_data (HTTP.data r) then Throw (Error "服务器响应数据为空")
     else match parsed with
          | Some _ => Ok Updated_reply
          | None => Throw (load_failed SyntaxError)
          end)
  /\ emojiMetadata (snd out)
     = (if (HTTP.status r =? 304) || no_data (HTTP.data r) then emojiMetadata w
        else match parsed with
             | Some metadata => Some metadata
             | None => emojiMetadata w
             end).
Proof.
  intros Hok Hresp. cbn zeta.
  destruct (Index.update_action env config w) as [res w'] eqn:E.
  cbn [fst snd]. revert E. unfold Index.update_action, bind at 1.
  destruct (Z.eqb_spec (HTTP.status r) 304) as [H304|H304];
    [|destruct (no_data (HTTP.data r)) eqn:Hdata].
  - pose proof (Index_downloadMetadata_cases env config w) as H. cbn zeta in H.
    rewrite (Hok OpMkdir), Hresp, H304, Z.eqb_refl in H. destruct H as (Hres & _).
    destruct (refresh_outcome_requests env config w _
                (Index_downloadMetadata_outcome env config w)) as (_ & Hst & _).
    destruct (Index.downloadMetadata env config w) as [res1 w1].
    cbn [fst snd] in Hres, Hst. subst res1. js_run. intros [= <- <-]. by split.
  - pose proof (Index_downloadMetadata_cases env config w) as H. cbn zeta in H.
    rewrite (Hok OpMkdir), Hresp, (proj2 (Z.eqb_neq _ _) H304), Hdata in H.
    destruct H as (Hres & _).
    destruct (refresh_outcome_requests env config w _
                (Index_downloadMetadata_outcome env config w)) as (_ & Hst & _).
    destruct (Index.downloadMetadata env config w) as [res1 w1].
    cbn [fst snd] in Hres, Hst. subst res1. intros [= <- <-]. by split.
  - destruct (Index_refresh_then_reload env config w r Hok Hresp H304 Hdata)
      as (w1 & Hdl & _ & Hst & Hload).
    rewrite Hdl. cbn [orb].
    destruct (JSON_parse_metadata env (default "" (HTTP.data r)));
      destruct Hload as [evs Hload]; unfold bind at 1; rewrite Hload;
      js_run; intros [= <- <-]; by split.
Qed.

Lemma X16_update_command_witness :
  let env := fixture_env (respond 200 "OK" (Some empty_document_text) no_headers)
               no_fault in
  let out := Index.update_action env fixture_config serving in
  fst out = Ok Updated_reply /\ emojiMetadata (snd out) = Some empty_document.
Proof.
  intros env out.
  apply (X16_update_command env fixture_config serving _ (fun _ => eq_refl) eq_refl).
Defined.

(** ** The lookup command, the other answers *)

(** X17.  The lookup command never throws and only reads: for every
    argument and every world it returns a reply, and the world after
    differs from the world before only by the calls of the encoder and of
    the store it recorded; the files, the store and the detached calls
    are as they were. *)
Theorem X17_lookup_replies_and_only_reads (emojis : option jsstring) (w : World) :
  exists reply evs,
    Index.emoji_action emojis w = (Ok reply, emits evs w)
    /\ Forall (fun ev => is_utils_call ev = true) evs.
Proof.
  unfold Index.emoji_action.
  destruct emojis as [[|u rest]|];
    try (exists Usage_missing, []; rewrite emits_nil; by split).
  destruct (Array_from (trim (u :: rest))) as [|first [|second [|third l]]];
    try (exists Usage_exactly_two, []; rewrite emits_nil; by split).
  unfold getEmojiCodepoint, getEmojiData. js_run. rewrite !emits_emits.
  cbn [emojiMetadata emits].
  destruct (emojiMetadata w) as [metadata|]; cbn [Utils.getEmojiData].
  - destruct (data metadata !! Utils.getEmojiCodepoint first
              ≫= (fun d => combinations d !! Utils.getEmojiCodepoint second))
      as [[|c0 l]|]; eexists _, _; (split; [reflexivity|]);
      repeat constructor.
  - eexists _, _. split; [reflexivity|]. repeat constructor.
Qed.

(** X18.  A lookup of two characters made while the store was never
    loaded does not throw: the NotLoaded error of the store is caught and
    the reply is the failure message that quotes it. *)
Theorem X18_lookup_before_any_load
    (w : World) (emojis first second : jsstring) :
  Array_from (trim emojis) = [first; second] ->
  emojiMetadata w = None ->
  fst (Index.emoji_action (Some emojis) w) = Ok (Failed (message Utils.not_loaded)).
Proof.
  intros Harr Hstore. destruct emojis as [|u rest]; [discriminate|].
  unfold Index.emoji_action. rewrite Harr.
  unfold getEmojiCodepoint, getEmojiData. js_run.
  cbn [emojiMetadata emits]. by rewrite Hstore.
Qed.

Lemma X18_lookup_before_any_load_witness :
  fst (Index.emoji_action (Some (joy ++ dog)) first_run)
  = Ok (Failed "元数据未加载").
Proof.
  apply (X18_lookup_before_any_load first_run (joy ++ dog) joy dog);
    reflexivity.
Defined.

(** X19.  A lookup of two characters answers not-found, naming the two
    characters as they were typed, in each of these cases: the document
    has no entry for the first character, the entry has no list for the
    second, or the list is empty.  The order of the two matters: only the
    entry of the first character is consulted. *)
Theorem X19_lookup_not_found
    (w : World) (emojis first second : jsstring) (metadata : EmojiMetadata) :
  Array_from (trim emojis) = [first; second] ->
  emojiMetadata w = Some metadata ->
  default [] (data metadata !! Utils.getEmojiCodepoint first
              ≫= fun entry => combinations entry !! Utils.getEmojiCodepoint second)
  = [] ->
  fst (Index.emoji_action (Some emojis) w) = Ok (Not_found first second).
Proof.
  intros Harr Hstore Hnone. destruct emojis as [|u rest]; [discriminate|].
  unfold Index.emoji_action. rewrite Harr.
  unfold getEmojiCodepoint, getEmojiData. js_run.
  cbn [emojiMetadata emits]. rewrite Hstore. cbn [Utils.getEmojiData].
  destruct (data metadata !! Utils.getEmojiCodepoint first
            ≫= (fun d => combinations d !! Utils.getEmojiCodepoint second))
    as [[|c0 l]|]; [reflexivity|discriminate|reflexivity].
Qed.

Lemma X19_lookup_not_found_witness :
  fst (Index.emoji_action (Some (dog ++ joy)) serving) = Ok (Not_found dog joy).
Proof.
  apply (X19_lookup_not_found serving (dog ++ joy) dog joy kitchen);
    reflexivity.
Defined.

(** ** The sibling loader *)

Lemma Sibling_getMetadataFile_fst_emits env config evs w :
  fst (Sibling.getMetadataFile env config (emits evs w))
  = fst (Sibling.getMetadataFile env config w).
Proof.
  pose proof (Sibling_getMetadataFile_cases env config w) as H1.
  pose proof (Sibling_getMetadataFile_cases env config (emits evs w)) as H2.
  cbn zeta in H1, H2. rewrite refresh_response_emits in H2.
  repeat match type of H1 with
         | if ?b then _ else _ => destruct b
         | match ?o with _ => _ end => destruct o
         end;
    destruct H1 as (-> & _); by destruct H2 as (-> & _).
Qed.

(** What a refresh of the sibling loader returns and keeps. *)
Lemma Sibling_getMetadataFile_returns env config w :
  exists b w1,
    Sibling.getMetadataFile env config w = (Ok b, w1)
    /\ emojiMetadata w1 = emojiMetadata w
    /\ (b = true -> is_Some (metadata_json w1) /\ is_Some (metadata_cache_json w1)).
Proof.
  destruct (Sibling_getMetadataFile_outcome env config w) as [Hout Hok].
  destruct (Sibling.getMetadataFile env config w) as [[b|e] w1]; [|discriminate].
  destruct Hout as (evs & w0 & Hw1 & Hst & _ & _ & _ & Hfiles).
  cbn [fst snd] in Hw1, Hfiles. subst w1. exists b, (emits evs w0).
  split; [reflexivity|]. split; [exact Hst|].
  intros ->. by apply Hfiles.
Qed.

Lemma Sibling_loadMetadata_existing_ok env config w :
  exists w1,
    Sibling.loadMetadata_existing env config w = (Ok tt, w1)
    /\ emojiMetadata w1 = emojiMetadata w.
Proof.
  unfold Sibling.loadMetadata_existing, bind at 1.
  destruct (Sibling_getMetadataFile_returns env config w)
    as (b & w1 & -> & Hst & _).
  destruct b; js_run; by eexists.
Qed.

Lemma Sibling_loadMetadata_unawaited_ok w :
  exists w1,
    Sibling.loadMetadata_unawaited w = (Ok tt, w1)
    /\ emojiMetadata w1 = emojiMetadata w.
Proof.
  unfold Sibling.loadMetadata_unawaited, existsSync, spawn. js_run.
  destruct (file MetadataPath w); [destruct (file CachePath w)|]; by eexists.
Qed.

Lemma Sibling_loadMetadata_missing_store env config w :
  emojiMetadata (snd (Sibling.loadMetadata_missing env config w)) = emojiMetadata w.
Proof.
  unfold Sibling.loadMetadata_missing, bind at 1.
  destruct (Sibling_getMetadataFile_returns env config w)
    as (b & w1 & -> & Hst & _).
  destruct b; cbn [negb]; [|exact Hst].
  unfold bind at 1, logger at 1.
  destruct (Sibling_loadMetadata_unawaited_ok
              (emit (EvLog Info ["元数据文件下载成功"]) w1)) as (w2 & -> & Hst2).
  cbn [snd]. by rewrite Hst2.
Qed.

Lemma Sibling_resume_never_loads env config t w :
  emojiMetadata (snd (Sibling.resume env config t w)) = emojiMetadata w.
Proof.
  destruct t; cbn [Sibling.resume].
  - by destruct (Sibling_loadMetadata_existing_ok env config w) as (w1 & -> & Hst).
  - apply Sibling_loadMetadata_missing_store.
Qed.

Lemma Sibling_settle_never_loads env config fuel w :
  emojiMetadata (settle (Sibling.resume env config) fuel w) = emojiMetadata w.
Proof.
  revert w. induction fuel as [|fuel IH]; intros w; [reflexivity|].
  cbn [settle]. destruct (detached w) as [|t ts] eqn:Hdet; [reflexivity|].
  rewrite IH. unfold run_detached. rewrite Hdet.
  pose proof (Sibling_resume_never_loads env config t (with_detached ts w)) as H.
  by destruct (Sibling.resume env config t (with_detached ts w)) as [[[]|e] w1].
Qed.

(** X12.  The bootstrap of the sibling loader can fail in one way only:
    with a metadata file on disk it always completes; without one it
    completes when its refresh returns true and throws the
    download-failed error in every other case, whatever went wrong
    (directory, network, timeout or disk). *)
Theorem X12_sibling_bootstrap_fails_one_way env config w :
  fst (Sibling.apply env config w)
  = match metadata_json w with
    | Some _ => Ok tt
    | None =>
        match fst (Sibling.getMetadataFile env config w) with
        | Ok true => Ok tt
        | _ => Throw (Error "元数据文件下载失败")
        end
    end.
Proof.
  destruct (Sibling.apply env config w) as [res w'] eqn:E.
  cbn [fst snd]. revert E.
  unfold Sibling.apply, bind at 1, Sibling.loadMetadata, bind at 1,
    existsSync at 1, file.
  destruct (metadata_json w) as [text|].
  - unfold bind at 1, existsSync, file.
    destruct (metadata_cache_json w) as [described|].
    + destruct (Sibling_loadMetadata_existing_ok env config w) as (w1 & -> & _).
      destruct (autoUpdate config); js_run; by intros [= <- <-].
    + destruct (autoUpdate config); js_run; by intros [= <- <-].
  - unfold bind at 1, logger at 1, Sibling.loadMetadata_missing, bind at 1.
    rewrite <- (Sibling_getMetadataFile_fst_emits env config
                  [EvLog Info ["元数据文件不存在，尝试下载"]] w).
    fold (emit (EvLog Info ["元数据文件不存在，尝试下载"]) w).
    destruct (Sibling_getMetadataFile_returns env config
                (emit (EvLog Info ["元数据文件不存在，尝试下载"]) w))
      as (b & w1 & -> & _).
    destruct b; cbn [negb fst]; [|by intros [= <- <-]].
    unfold bind at 1, logger at 1.
    destruct (Sibling_loadMetadata_unawaited_ok
                (emit (EvLog Info ["元数据文件下载成功"]) w1)) as (w2 & -> & _).
    destruct (autoUpdate config); js_run; by intros [= <- <-].
Qed.

(** X20.  The sibling loader never loads the store: after its bootstrap,
    and after the event loop has run the calls the bootstrap left
    detached, however many, the store is what it was before.  Started
    with nothing loaded, every lookup of two characters is then answered
    with the failure message of the NotLoaded error. *)
Theorem X20_sibling_store_stays_unloaded
    env config w fuel (emojis first second : jsstring) :
  emojiMetadata w = None ->
  Array_from (trim emojis) = [first; second] ->
  let w' := settle (Sibling.resume env config) fuel
              (snd (Sibling.apply env config w)) in
  emojiMetadata w' = None
  /\ fst (Index.emoji_action (Some emojis) w') = Ok (Failed (message Utils.not_loaded)).
Proof.
  intros Hstore Harr w'.
  assert (emojiMetadata w' = None) as Hnone.
  { unfold w'. by rewrite Sibling_settle_never_loads, Sibling_apply_never_loads. }
  split; [exact Hnone|].
  destruct emojis as [|u rest]; [discriminate|].
  unfold Index.emoji_action. rewrite Harr.
  unfold getEmojiCodepoint, getEmojiData. js_run.
  cbn [emojiMetadata emits]. by rewrite Hnone.
Qed.

Lemma X20_sibling_store_stays_unloaded_witness :
  let env := fixture_env (respond 200 "OK" (Some empty_document_text) no_headers)
               no_fault in
  let w' := settle (Sibling.resume env fixture_config) 5
              (snd (Sibling.apply env fixture_config first_run)) in
  fst (Sibling.apply env fixture_config first_run) = Ok tt
  /\ emojiMetadata w' = None
  /\ fst (Index.emoji_action (Some (joy ++ dog)) w') = Ok (Failed "元数据未加载").
Proof.
  intros env w'. split; [reflexivity|].
  apply (X20_sibling_store_stays_unloaded env fixture_config first_run 5
           (joy ++ dog) joy dog eq_refl eq_refl).
Defined.

(** X21.  The update command and the timer of the sibling loader never
    throw and never change the store: the command replies that the
    metadata was updated when its refresh returns true and that nothing
    changed otherwise, and after the command as after a tick the store is
    what it was before. *)
Theorem X21_sibling_update_command_and_timer env config w :
  let out := Sibling.update_action env config w in
  let tick := Sibling.interval_callback env config w in
  fst out
  = match fst (Sibling.getMetadataFile env config w) with
    | Ok true => Ok Updated_reply
    | _ => Ok Unchanged_reply
    end
  /\ emojiMetadata (snd out) = emojiMetadata w
  /\ fst tick = Ok tt
  /\ emojiMetadata (snd tick) = emojiMetadata w.
Proof.
  cbn zeta.
  assert (forall b w1,
            Sibling.getMetadataFile env config w = (Ok b, w1) ->
            b = true ->
            exists w2, Sibling.loadMetadata env config w1 = (Ok tt, w2)
                       /\ emojiMetadata w2 = emojiMetadata w1) as Hload.
  { intros b w1 Hget ->.
    destruct (Sibling_getMetadataFile_returns env config w)
      as (b & w1' & Hget' & _ & Hfiles).
    rewrite Hget in Hget'. injection Hget' as <- <-.
    destruct (Hfiles eq_refl) as [[text Htext] [described Hdescribed]].
    unfold Sibling.loadMetadata, bind at 1, existsSync at 1, file.
    rewrite Htext. unfold bind at 1, existsSync, file. rewrite Hdescribed.
    apply Sibling_loadMetadata_existing_ok. }
  destruct (Sibling_getMetadataFile_returns env config w)
    as (b & w1 & Hget & Hst & _).
  specialize (Hload b w1 Hget).
  destruct (Sibling.update_action env config w) as [res w'] eqn:E.
  destruct (Sibling.interval_callback env config w) as [res' w''] eqn:E'.
  cbn [fst snd]. revert E E'.
  unfold Sibling.update_action, Sibling.interval_callback, try_catch, bind at 1 3.
  rewrite Hget. cbn [fst]. destruct b.
  - destruct (Hload eq_refl) as (w2 & Hl & Hst2). unfold bind at 1. rewrite Hl.
    js_run. intros [= <- <-] [= <- <-]. by rewrite Hst2.
  - js_run. by intros [= <- <-] [= <- <-].
Qed.

(** ** The encoder never confuses two strings *)

Lemma code_points_utf16_all (s : jsstring) :
  Forall code_unit s ->
  Forall (fun c => 0 <= c <= 0x10FFFF) (code_points s)
  /\ concat (utf16 <$> code_points s) = s.
Proof.
  remember (length s) as n eqn:Hn. revert s Hn.
  induction (lt_wf n) as [n _ IH]. intros s -> Hs.
  destruct s as [|u rest]; [split; [constructor|reflexivity]|].
  inversion Hs as [|? ? Hu Hrest]; subst. unfold code_unit in Hu.
  assert (utf16 u = [u]) as Hsingle
    by (unfold utf16; destruct (Z.leb_spec u 0xFFFF); [reflexivity|lia]).
  assert (forall t : jsstring,
            (length t < length (u :: rest))%nat -> Forall code_unit t ->
            Forall (fun c => 0 <= c <= 0x10FFFF) (u :: code_points t)
            /\ concat (utf16 <$> u :: code_points t) = u :: t) as Hone.
  { intros t Hlen Ht. destruct (IH (length t) Hlen t eq_refl Ht) as [Hc Hj].
    split; [constructor; [lia|exact Hc]|].
    by rewrite fmap_cons, concat_cons, Hsingle, Hj. }
  cbn [code_points].
  destruct (is_high_surrogate u) eqn:Hhigh;
    [|apply Hone; [simpl; lia|exact Hrest]].
  destruct rest as [|l rest'].
  { split; [repeat constructor; lia|]. simpl. by rewrite Hsingle. }
  destruct (is_low_surrogate l) eqn:Hlow;
    [|apply Hone; [simpl; lia|exact Hrest]].
  inversion Hrest as [|? ? Hl Hrest']; subst. unfold code_unit in Hl.
  destruct (IH (length rest') ltac:(simpl; lia) rest' eq_refl Hrest') as [Hc Hj].
  unfold is_high_surrogate, is_low_surrogate in Hhigh, Hlow. bool_to_Z.
  split; [constructor; [lia|exact Hc]|].
  rewrite fmap_cons, concat_cons, Hj. unfold utf16.
  destruct (Z.leb_spec ((u - 0xD800) * 0x400 + (l - 0xDC00) + 0x10000) 0xFFFF);
    [lia|].
  simpl app. f_equal; [|f_equal]; Z.div_mod_to_equations; lia.
Qed.

Lemma toPrintableEmoji_getEmojiCodepoint_all (s : jsstring) :
  s <> [] -> Forall code_unit s ->
  Utils.toPrintableEmoji (Utils.getEmojiCodepoint s) = Ok s.
Proof.
  intros Hne Hs. destruct (code_points_utf16_all s Hs) as [Hrange Hjoin].
  rewrite getEmojiCodepoint_code_points by done.
  unfold Utils.toPrintableEmoji. rewrite split_join.
  - rewrite parseInt16_code_points by (by apply code_points_nonneg).
    rewrite fromCodePoint_utf16 by done. by rewrite Hjoin.
  - intros E. apply fmap_nil_inv in E. by apply code_points_nil in E.
  - eapply Forall_impl; [by apply toString16_code_points_lower|].
    apply lower_hex_not_hyphen.
Qed.

(** X22.  The encoder never gives two different strings the same
    codepoint string, lone surrogates included, and the decoder gives
    back every non-empty string from its codepoint string: the round trip
    needs no pairing of the surrogates. *)
Theorem X22_getEmojiCodepoint_injective (s1 s2 : jsstring) :
  Forall code_unit s1 ->
  Forall code_unit s2 ->
  s1 <> s2 ->
  Utils.getEmojiCodepoint s1 <> Utils.getEmojiCodepoint s2
  /\ (s1 <> [] -> Utils.toPrintableEmoji (Utils.getEmojiCodepoint s1) = Ok s1).
Proof.
  intros H1 H2 Hne.
  split; [|intros ?; by apply toPrintableEmoji_getEmojiCodepoint_all].
  intros E.
  assert (Utils.toPrintableEmoji (Utils.getEmojiCodepoint s1)
          = Utils.toPrintableEmoji (Utils.getEmojiCodepoint s2)) as Heq
    by (by rewrite E).
  destruct s1 as [|u1 r1], s2 as [|u2 r2]; [done| | |].
  - rewrite (toPrintableEmoji_getEmojiCodepoint_all (u2 :: r2)) in Heq by done.
    discriminate.
  - rewrite (toPrintableEmoji_getEmojiCodepoint_all (u1 :: r1)) in Heq by done.
    discriminate.
  - rewrite !toPrintableEmoji_getEmojiCodepoint_all in Heq by done.
    by injection Heq as -> ->.
Qed.

Lemma X22_getEmojiCodepoint_injective_witness :
  Utils.getEmojiCodepoint [0xD83D; 0x41] <> Utils.getEmojiCodepoint [0xDE00; 0xD83D]
  /\ Utils.toPrintableEmoji (Utils.getEmojiCodepoint [0xD83D; 0x41])
     = Ok [0xD83D; 0x41].
Proof.
  destruct (X22_getEmojiCodepoint_injective [0xD83D; 0x41] [0xDE00; 0xD83D])
    as [Hne Hback].
  - unfold code_unit. repeat constructor; lia.
  - unfold code_unit. repeat constructor; lia.
  - discriminate.
  - split; [exact Hne|]. apply Hback. discriminate.
Defined.
